(** * gigsama_BE: the chat relay and the project store of [index.js]

    A shallow embedding of the Express handlers of [src/index.js] and the
    properties of its conversation policy, prompt assembly and project CRUD.

    Conventions of the embedding
    - a JS string is a [string];
    - a value produced by [JSON.parse] is a [json]; a JS value that may also
      be [undefined] (a missing property, a missing body) is an [option json]
      with [None] for [undefined];
    - a [throw] is the left injection of [Try]; a handler's [try { } catch]
      is [try_catch];
    - what the process does not compute itself (the language model's answer,
      [nanoid()], [new Date()], the reachability of the MongoDB server) is an
      argument of the handler or a field of the store model. *)

From Stdlib Require Import String Ascii List ZArith NArith Bool Arith Lia.
Import ListNotations.
Open Scope string_scope.

(** ** Strings *)

(** The line feed of the template literals and of [join("\n")]. *)
Definition LF : string := String "010"%char EmptyString.

(** [Array.prototype.join] on an array of strings is [String.concat]. *)
Definition join (sep : string) (parts : list string) : string :=
  String.concat sep parts.

(** [lines_text ls] is a multi-line template literal, given by its lines. *)
Definition lines_text (ls : list string) : string := join LF ls.

(** ** Thrown values and the error monad *)

(** A thrown value, as far as the handlers look at it: [error.message],
    which is [undefined] for a thrown value that is no [Error]. *)
Record JsError : Type := mkError { message : option string }.

Definition TypeError (msg : string) : JsError := mkError (Some msg).

Definition Try (A : Type) : Type := (JsError + A)%type.

Definition ok {A : Type} (a : A) : Try A := inr a.
Definition throw {A : Type} (e : JsError) : Try A := inl e.

Definition bind {A B : Type} (m : Try A) (f : A -> Try B) : Try B :=
  match m with
  | inl e => inl e
  | inr a => f a
  end.

Declare Scope try_scope.
Delimit Scope try_scope with try.
Notation "x <- m ;; k" := (bind m (fun x => k))
  (at level 61, m at next level, right associativity) : try_scope.
Open Scope try_scope.

(** [arr.map(f)] for an [f] that may throw: the first throw wins. *)
Fixpoint mapM {A B : Type} (f : A -> Try B) (l : list A) : Try (list B) :=
  match l with
  | [] => ok []
  | a :: rest => b <- f a ;; bs <- mapM f rest ;; ok (b :: bs)
  end.

(** [arr.filter(f)] for an [f] that may throw. *)
Fixpoint filterM {A : Type} (f : A -> Try bool) (l : list A) : Try (list A) :=
  match l with
  | [] => ok []
  | a :: rest =>
      keep <- f a ;; kept <- filterM f rest ;;
      ok (if keep then a :: kept else kept)
  end.

(** ** JSON values, as [express.json()] leaves them in [req.body] *)

(** A Number is carried by the decimal text [String(n)] gives for it: the
    program never computes with a number of a request, it only prints it. *)
#[local] Unset Elimination Schemes.
Inductive json : Type :=
| JNull
| JBool (b : bool)
| JNum (shown : string)
| JStr (s : string)
| JArr (items : list json)
| JObj (fields : list (string * json)).
#[local] Set Elimination Schemes.

(** Own property of a parsed object. *)
Fixpoint lookup (key : string) (fields : list (string * json)) : option json :=
  match fields with
  | [] => None
  | (k, v) :: rest => if String.eqb k key then Some v else lookup key rest
  end.

Definition has_key (key : string) (fields : list (string * json)) : bool :=
  match lookup key fields with Some _ => true | None => false end.

(** [v.key] for the property names the handlers read ([messages], [role],
    [content], [name], [schema], [schemaType], [conversation]): none of them
    is on a prototype, so only a parsed object can have one. *)
Definition Get (v : option json) (key : string) : Try (option json) :=
  match v with
  | None =>
      throw (TypeError ("Cannot read properties of undefined (reading '"
                          ++ key ++ "')"))
  | Some JNull =>
      throw (TypeError ("Cannot read properties of null (reading '"
                          ++ key ++ "')"))
  | Some (JObj fields) => ok (lookup key fields)
  | Some _ => ok None
  end.

(** [const { key } = req.body]. *)
Definition destructure (body : option json) (key : string)
  : Try (option json) :=
  match body with
  | None =>
      throw (TypeError ("Cannot destructure property '" ++ key
                          ++ "' of 'req.body' as it is undefined."))
  | Some JNull =>
      throw (TypeError ("Cannot destructure property '" ++ key
                          ++ "' of 'req.body' as it is null."))
  | Some (JObj fields) => ok (lookup key fields)
  | Some _ => ok None
  end.

(** ToString of a parsed value, as a template literal applies it.  An array
    prints its items joined by commas, [null] items as nothing.  A parsed
    object prints as [[object Object]], unless it has an own [toString]
    property: that one is not callable, [valueOf] gives no primitive, and the
    conversion throws.  The recursion on arrays is as deep as the value; the
    engine's is as deep as its stack, and throws a RangeError beyond that
    (some thousand levels of nesting).  Statements about values that are not
    strings therefore keep to roles and contents that are no arrays, see
    [prints_flat]. *)
Fixpoint ToString (v : json) : Try string :=
  match v with
  | JNull => ok "null"
  | JBool true => ok "true"
  | JBool false => ok "false"
  | JNum shown => ok shown
  | JStr s => ok s
  | JArr items =>
      (fix join_items (l : list json) : Try string :=
         match l with
         | [] => ok ""
         | x :: rest =>
             s <- match x with JNull => ok "" | _ => ToString x end ;;
             match rest with
             | [] => ok s
             | _ :: _ => r <- join_items rest ;; ok (s ++ "," ++ r)
             end
         end) items
  | JObj fields =>
      if has_key "toString" fields
      then throw (TypeError "Cannot convert object to primitive value")
      else ok "[object Object]"
  end.

(** [`${v}`] *)
Definition template (v : option json) : Try string :=
  match v with
  | None => ok "undefined"
  | Some j => ToString j
  end.

(** ** The process and its responses *)

Record GoogleGenerativeAI : Type := mkGenAI { apiKey : string }.
Record Db : Type := mkDb { databaseName : string }.

(** The module-level state of [index.js]: the environment variable the
    handlers read and the two [let] handles. *)
Record Process : Type := mkProcess {
  GEMINI_API_KEY : option string;
  genAI : option GoogleGenerativeAI;
  db : option Db
}.

(** [!!process.env.X]: an environment variable is a string or is unset. *)
Definition truthy (v : option string) : bool :=
  match v with
  | Some s => negb (String.eqb s "")
  | None => false
  end.

(** A property value of an object handed to [res.json]. *)
Inductive value : Type :=
| VStr (s : string)
| VBool (b : bool)
| VJson (j : json)
| VDate (ms : Z).

Record Response : Type := mkResponse {
  status : nat;
  body : list (string * value)
}.

(** [res.json(obj)] and [res.status(code).json(obj)]. *)
Definition res_json (obj : list (string * value)) : Response :=
  mkResponse 200 obj.
Definition res_status_json (code : nat) (obj : list (string * value))
  : Response :=
  mkResponse code obj.

(** [a || b] on a message. *)
Definition or_else (msg : option string) (fallback : string) : string :=
  match msg with
  | Some s => if String.eqb s "" then fallback else s
  | None => fallback
  end.

(** ** POST /api/chat *)

Definition clarifyPrompt : string := lines_text [
  "You are a helpful database design assistant. Help the user design their MongoDB database schema by asking relevant questions about their project requirements.";
  "Focus on understanding:";
  "- The purpose of the database";
  "- The main collections needed";
  "- The document structure for each collection";
  "- Relationships between collections";
  "- Any specific indexes or constraints needed";
  "";
  "Ask one question at a time and wait for the user's response before proceeding to the next question."
].

Definition generatePrompt : string := lines_text [
  "You are a helpful MongoDB database design assistant. Based on the conversation so far, generate a complete MongoDB schema.";
  "";
  "Generate a MongoDB schema using JSON format showing the structure of documents and collections. Include:";
  "1. Collection definitions";
  "2. Sample documents with proper field types";
  "3. Suggested indexes";
  "4. Embedding vs referencing recommendations for relationships";
  "";
  "Explain your design decisions based on MongoDB best practices and the requirements.";
  "Format the schema in a code block using triple backticks with json as the language."
].

(** The callback of line 116: [(m) => m.role === "user"]. *)
Definition is_user (m : json) : Try bool :=
  r <- Get (Some m) "role" ;;
  ok (match r with
      | Some (JStr s) => String.eqb s "user"
      | _ => false
      end).

(** [messages.filter((m) => m.role === "user")]: only an array has a
    callable [filter]. *)
Definition userMessages (messages : option json) : Try (list json) :=
  match messages with
  | None =>
      throw (TypeError "Cannot read properties of undefined (reading 'filter')")
  | Some JNull =>
      throw (TypeError "Cannot read properties of null (reading 'filter')")
  | Some (JArr items) => filterM is_user items
  | Some _ => throw (TypeError "messages.filter is not a function")
  end.

(** Lines 117 to 140. *)
Definition shouldGenerateSchema (users : list json) : bool :=
  (3 <=? length users)%nat.

Definition systemPrompt (generate : bool) : string :=
  if generate then generatePrompt else clarifyPrompt.

(** [...messages] inside an array literal.  It is reached with an array
    only: for anything else the [filter] call before it has thrown. *)
Definition spread (messages : option json) : Try (list json) :=
  match messages with
  | Some (JArr items) => ok items
  | _ => throw (TypeError "messages is not iterable")
  end.

(** [`${msg.role}: ${msg.content}`] *)
Definition render (msg : json) : Try string :=
  r <- Get (Some msg) "role" ;;
  rs <- template r ;;
  c <- Get (Some msg) "content" ;;
  cs <- template c ;;
  ok (rs ++ ": " ++ cs).

(** What the [try] block has computed when it calls the model
    (lines 113 to 154). *)
Record Plan : Type := mkPlan {
  generate : bool;
  prompt : string
}.

Definition plan (req_body : option json) : Try Plan :=
  messages <- destructure req_body "messages" ;;
  users <- userMessages messages ;;
  let generate := shouldGenerateSchema users in
  let system :=
    JObj [("role", JStr "system"); ("content", JStr (systemPrompt generate))] in
  rest <- spread messages ;;
  let combinedMessages := system :: rest in
  rendered <- mapM render combinedMessages ;;
  ok (mkPlan generate (join LF rendered)).

(** A handler either answers, or calls the model and answers from what the
    call gave: the generated text, or what it threw. *)
Inductive Handler : Type :=
| Respond (r : Response)
| GenerateContent (model : string) (prompt : string)
                  (k : Try string -> Response).

(** The [catch] of the chat handler. *)
Definition chat_catch (error : JsError) : Response :=
  res_status_json 500
    [("error",
      VStr (or_else (message error)
              "An error occurred while generating the response"))].

Definition chat_reply (answer : Try string) : Response :=
  match answer with
  | inr text => res_json [("content", VStr text); ("role", VStr "assistant")]
  | inl error => chat_catch error
  end.

Definition chat (p : Process) (req_body : option json) : Handler :=
  if negb (truthy (GEMINI_API_KEY p)) then
    Respond (res_status_json 500
      [("error", VStr "Gemini API key is missing. Please set the GEMINI_API_KEY environment variable.")])
  else
    match genAI p with
    | None =>
        Respond (res_status_json 500
          [("error", VStr "Gemini client is not initialized. Please check your API key.")])
    | Some _ =>
        match plan req_body with
        | inl error => Respond (chat_catch error)
        | inr pl => GenerateContent "gemini-2.0-flash" (prompt pl) chat_reply
        end
    end.

(** Running a handler against a model: [generateContent model prompt] is
    what [model.generateContent(prompt)] followed by [response.text()]
    gives, or throws. *)
Definition perform (generateContent : string -> string -> Try string)
  (h : Handler) : Response :=
  match h with
  | Respond r => r
  | GenerateContent model prompt k => k (generateContent model prompt)
  end.

(** ** The MongoDB collection [projects] *)

(** A stored document.  The handlers only ever write documents of this
    shape; [_id] is the identifier the driver adds on insertion. *)
Record Project : Type := mkProject {
  _id : N;
  id : string;
  name : json;
  schema : json;
  schemaType : json;
  conversation : json;
  createdAt : Z;
  updatedAt : Z
}.

(** The commands the driver sends. *)
Inductive Command : Type :=
| Connect
| CreateIndex
| Ping
| FindOne (key : string)
| InsertOne (key : string)
| UpdateOne (key : string).

(** The store as the process sees it: whether the server answers, whether
    the unique index on [id] exists, the documents in insertion order, the
    next fresh [_id], and every command the driver was asked to send. *)
Record Mongo : Type := mkMongo {
  reachable : bool;
  unique_id : bool;
  projects : list Project;
  next_oid : N;
  calls : list Command
}.

Definition called (c : Command) (m : Mongo) : Mongo :=
  mkMongo (reachable m) (unique_id m) (projects m) (next_oid m)
          (calls m ++ [c]).

Definition with_projects (ps : list Project) (m : Mongo) : Mongo :=
  mkMongo (reachable m) (unique_id m) ps (next_oid m) (calls m).

(** An awaited driver call: it may throw, and it may change the store. *)
Definition Async (A : Type) : Type := Mongo -> Try A * Mongo.

Definition ret {A : Type} (a : A) : Async A := fun m => (ok a, m).

Definition lift {A : Type} (t : Try A) : Async A := fun m => (t, m).

Definition bindA {A B : Type} (c : Async A) (f : A -> Async B) : Async B :=
  fun m =>
    match c m with
    | (inl e, m') => (inl e, m')
    | (inr a, m') => f a m'
    end.

Declare Scope async_scope.
Delimit Scope async_scope with async.
Notation "x <~ c ;; k" := (bindA c (fun x => k))
  (at level 61, c at next level, right associativity) : async_scope.

(** [try { ... } catch (error) { ... }] around a handler body. *)
Definition try_catch (block : Async Response) (handler : JsError -> Response)
  : Mongo -> Response * Mongo :=
  fun m =>
    match block m with
    | (inr r, m') => (r, m')
    | (inl error, m') => (handler error, m')
    end.

Definition networkError : JsError :=
  mkError (Some "connect ECONNREFUSED").

Definition duplicateKey : JsError :=
  mkError (Some "E11000 duplicate key error collection: projects index: id_1").

(** A driver call reaches the server or throws. *)
Definition send {A : Type} (c : Command) (serve : Mongo -> Try A * Mongo)
  : Async A :=
  fun m =>
    let m1 := called c m in
    if reachable m1 then serve m1 else (throw networkError, m1).

Definition has_id (key : string) (d : Project) : bool := String.eqb (id d) key.

(** [collection.findOne({ id })]: the first match in natural order. *)
Definition findOne (key : string) : Async (option Project) :=
  send (FindOne key) (fun m => (ok (find (has_id key) (projects m)), m)).

(** A field of a document to insert, or of a [$set]: the driver writes an
    [undefined] one as [null] ([ignoreUndefined] is off by default). *)
Definition bson (v : option json) : json :=
  match v with
  | Some j => j
  | None => JNull
  end.

(** [collection.insertOne(project)]: the driver adds a fresh [_id]; the
    server refuses a second document with the same [id] when the unique
    index is there.  The driver also throws on a document it cannot
    serialise (a key with the character U+0000 somewhere inside a submitted
    object): that failure is left out here, and statements that promise a
    successful insert keep to scalar field values, see [scalar]. *)
Definition insertOne (key : string) (name schema schemaType conversation : json)
  (created updated : Z) : Async unit :=
  send (InsertOne key) (fun m =>
    if unique_id m && existsb (has_id key) (projects m)
    then (throw duplicateKey, m)
    else
      let project :=
        mkProject (next_oid m) key name schema schemaType conversation
                  created updated in
      (ok tt,
       mkMongo (reachable m) (unique_id m) (projects m ++ [project])
               (N.succ (next_oid m)) (calls m))).

(** [{ $set: { name, schema, updatedAt } }] applied to a document. *)
Definition set_fields (new_name new_schema : json) (now : Z) (d : Project)
  : Project :=
  mkProject (_id d) (id d) new_name new_schema (schemaType d) (conversation d)
            (createdAt d) now.

(** The documents after [updateOne], and its [matchedCount]. *)
Fixpoint update_first (key : string) (f : Project -> Project)
  (ps : list Project) : list Project * nat :=
  match ps with
  | [] => ([], 0)
  | d :: rest =>
      if has_id key d then (f d :: rest, 1)
      else let (rest', n) := update_first key f rest in (d :: rest', n)
  end.

(** [collection.updateOne({ id }, { $set: ... })], without [upsert]. *)
Definition updateOne (key : string) (new_name new_schema : json) (now : Z)
  : Async nat :=
  send (UpdateOne key) (fun m =>
    let (ps, matchedCount) :=
      update_first key (set_fields new_name new_schema now) (projects m) in
    (ok matchedCount, with_projects ps m)).

(** [db.command({ ping: 1 })] *)
Definition command_ping : Async json :=
  send Ping (fun m => (ok (JObj [("ok", JNum "1")]), m)).

(** [!!v] on a parsed value or a document. *)
Definition truthy_json (v : json) : bool :=
  match v with
  | JNull => false
  | JBool b => b
  | JNum shown => negb (String.eqb shown "0" || String.eqb shown "NaN")
  | JStr s => negb (String.eqb s "")
  | JArr _ => true
  | JObj _ => true
  end.

(** ** The project handlers *)

Open Scope async_scope.

Definition unavailable : Response :=
  res_status_json 500 [("error", VStr "Database connection not available")].

(** The object literal of lines 187 to 195. *)
Definition view (project : Project) : list (string * value) :=
  [("id", VStr (id project));
   ("name", VJson (name project));
   ("schema", VJson (schema project));
   ("schemaType", VJson (schemaType project));
   ("conversation", VJson (conversation project));
   ("createdAt", VDate (createdAt project));
   ("updatedAt", VDate (updatedAt project))].

(** GET /api/projects/:id *)
Definition get_project (p : Process) (key : string)
  : Mongo -> Response * Mongo :=
  match db p with
  | None => fun m => (unavailable, m)
  | Some _ =>
      try_catch
        (project <~ findOne key ;;
         match project with
         | None => ret (res_status_json 404 [("error", VStr "Project not found")])
         | Some project => ret (res_json (view project))
         end)
        (fun error =>
           res_status_json 500 [("error", VStr "Failed to fetch project")])
  end.

(** POST /api/projects; [fresh] is what [nanoid()] returned and [now] what
    [new Date()] read. *)
Definition post_project (p : Process) (req_body : option json)
  (fresh : string) (now : Z) : Mongo -> Response * Mongo :=
  match db p with
  | None => fun m => (unavailable, m)
  | Some _ =>
      try_catch
        (name <~ lift (destructure req_body "name") ;;
         schema <~ lift (destructure req_body "schema") ;;
         schemaType <~ lift (destructure req_body "schemaType") ;;
         conversation <~ lift (destructure req_body "conversation") ;;
         _ <~ insertOne fresh (bson name) (bson schema) (bson schemaType)
                        (bson conversation) now now ;;
         ret (res_status_json 201 [("id", VStr fresh)]))
        (fun error =>
           res_status_json 500 [("error", VStr "Failed to create project")])
  end.

(** PUT /api/projects/:id *)
Definition put_project (p : Process) (key : string) (req_body : option json)
  (now : Z) : Mongo -> Response * Mongo :=
  match db p with
  | None => fun m => (unavailable, m)
  | Some _ =>
      try_catch
        (name <~ lift (destructure req_body "name") ;;
         schema <~ lift (destructure req_body "schema") ;;
         matchedCount <~ updateOne key (bson name) (bson schema) now ;;
         if Nat.eqb matchedCount 0
         then ret (res_status_json 404 [("error", VStr "Project not found")])
         else ret (res_json [("success", VBool true)]))
        (fun error =>
           res_status_json 500 [("error", VStr "Failed to update project")])
  end.

(** GET /api/status *)
Definition get_status (p : Process) : Mongo -> Response * Mongo :=
  fun m =>
    let gemini := truthy (GEMINI_API_KEY p) in
    let (database, m') :=
      match db p with
      | Some _ =>
          match command_ping m with
          | (inr dbResult, m') => (truthy_json dbResult, m')
          | (inl error, m') => (false, m')
          end
      | None => (false, m)
      end in
    (res_json [("server", VBool true);
               ("gemini", VBool gemini);
               ("database", VBool database)], m').

(** ** Start-up *)

(** Lines 60 to 71: [construct] is [new GoogleGenerativeAI(key)], which the
    source guards with a [try]. *)
Definition initGenAI (key : option string)
  (construct : string -> Try GoogleGenerativeAI) : option GoogleGenerativeAI :=
  match key with
  | Some k =>
      if negb (truthy key) then None
      else match construct k with
           | inr client => Some client
           | inl error => None
           end
  | None => None
  end.

Fixpoint distinct_ids (ps : list Project) : bool :=
  match ps with
  | [] => true
  | d :: rest => negb (existsb (has_id (id d)) rest) && distinct_ids rest
  end.

(** [createIndex({ id: 1 }, { unique: true })]: the build fails over
    documents that already share an [id]. *)
Definition createIndex : Async unit :=
  send CreateIndex (fun m =>
    if distinct_ids (projects m)
    then (ok tt,
          mkMongo (reachable m) true (projects m) (next_oid m) (calls m))
    else (throw duplicateKey, m)).

(** [connectToMongoDB()]: the [db] it leaves behind, and what it returns
    ([None] for the bare [return]). *)
Definition connectToMongoDB (MONGODB_URI MONGODB_DB_NAME : option string)
  : Mongo -> (option Db * option bool) * Mongo :=
  fun m =>
    if negb (truthy MONGODB_URI) then ((None, None), m)
    else
      match send Connect (fun m1 => (ok tt, m1)) m with
      | (inl error, m1) => ((None, Some false), m1)
      | (inr _, m1) =>
          let handle := mkDb (or_else MONGODB_DB_NAME "schema_designer") in
          match createIndex m1 with
          | (inl error, m2) => ((Some handle, Some false), m2)
          | (inr _, m2) => ((Some handle, Some true), m2)
          end
      end.

(** The process that serves requests. *)
Definition startServer (key MONGODB_URI MONGODB_DB_NAME : option string)
  (construct : string -> Try GoogleGenerativeAI) (m : Mongo)
  : Process * Mongo :=
  let '((handle, _), m') := connectToMongoDB MONGODB_URI MONGODB_DB_NAME m in
  (mkProcess key (initGenAI key construct) handle, m').

(** ** Requests over time *)

Inductive Request : Type :=
| GET_status
| POST_chat (req_body : option json) (answer : Try string)
| GET_project (key : string)
| POST_project (req_body : option json) (fresh : string) (now : Z)
| PUT_project (key : string) (req_body : option json) (now : Z).

Definition handle (p : Process) (r : Request) : Mongo -> Response * Mongo :=
  match r with
  | GET_status => get_status p
  | POST_chat req_body answer =>
      fun m => (perform (fun _ _ => answer) (chat p req_body), m)
  | GET_project key => get_project p key
  | POST_project req_body fresh now => post_project p req_body fresh now
  | PUT_project key req_body now => put_project p key req_body now
  end.

(** Whether the server answers is the world's choice, request by request. *)
Definition weather (up : bool) (m : Mongo) : Mongo :=
  mkMongo up (unique_id m) (projects m) (next_oid m) (calls m).

Fixpoint run (p : Process) (history : list (bool * Request)) (m : Mongo)
  : Mongo :=
  match history with
  | [] => m
  | (up, r) :: rest => run p rest (snd (handle p r (weather up m)))
  end.


(** ** The vocabulary of the specification *)

(** A chat turn of the spec's data model, and the message it is in a
    request body. *)
Record ChatTurn : Type := mkTurn { role : string; content : string }.

Definition turn_json (t : ChatTurn) : json :=
  JObj [("role", JStr (role t)); ("content", JStr (content t))].

Definition chat_body (turns : list ChatTurn) : option json :=
  Some (JObj [("messages", JArr (map turn_json turns))]).

Inductive Mode : Type := CLARIFY | GENERATE.

Definition mode_of (generate : bool) : Mode :=
  if generate then GENERATE else CLARIFY.

Definition instruction (mode : Mode) : string :=
  match mode with
  | CLARIFY => clarifyPrompt
  | GENERATE => generatePrompt
  end.

Definition is_user_turn (t : ChatTurn) : bool := String.eqb (role t) "user".

Definition userTurnCount (turns : list ChatTurn) : nat :=
  length (filter is_user_turn turns).

(** The policy mode of a chat call, when the handler gets to choose one. *)
Definition chat_mode (req_body : option json) : option Mode :=
  match plan req_body with
  | inr pl => Some (mode_of (generate pl))
  | inl _ => None
  end.

(** The spec's serialisation: ["<role>: <content>"] per turn, joined by
    newlines. *)
Definition serialize (turns : list ChatTurn) : string :=
  join LF (map (fun t => role t ++ ": " ++ content t) turns).

(** The prompt a handler sends to the model, if it sends one. *)
Definition prompt_sent (h : Handler) : option string :=
  match h with
  | GenerateContent _ prompt _ => Some prompt
  | Respond _ => None
  end.

(** *** Re-splitting a flattened prompt

    The reading the spec's round-trip property asks for; [index.js] has no
    such function.  A line that starts with a role marker opens a turn, any
    other line continues the content of the turn before it. *)

Definition is_LF (c : ascii) : bool := Ascii.eqb c "010"%char.

(** [s.split("\n")] *)
Fixpoint lines (s : string) : list string :=
  match s with
  | EmptyString => [EmptyString]
  | String c rest =>
      if is_LF c then EmptyString :: lines rest
      else match lines rest with
           | l :: ls => String c l :: ls
           | [] => [String c EmptyString]
           end
  end.

Fixpoint strip_prefix (p s : string) : option string :=
  match p, s with
  | EmptyString, _ => Some s
  | String a p', String b s' =>
      if Ascii.eqb a b then strip_prefix p' s' else None
  | String _ _, EmptyString => None
  end.

Definition roles : list string := ["system"; "user"; "assistant"].

Fixpoint marker_of (rs : list string) (line : string)
  : option (string * string) :=
  match rs with
  | [] => None
  | r :: rest =>
      match strip_prefix (r ++ ": ") line with
      | Some text => Some (r, text)
      | None => marker_of rest line
      end
  end.

Definition marker (line : string) : option (string * string) :=
  marker_of roles line.

Definition unmarked (line : string) : bool :=
  match marker line with Some _ => false | None => true end.

(** From the last line backwards: the lines not yet claimed by a turn, and
    the turns found. *)
Fixpoint regroup (ls : list string) : list string * list ChatTurn :=
  match ls with
  | [] => ([], [])
  | l :: rest =>
      let (pending, turns) := regroup rest in
      match marker l with
      | Some (r, text) => ([], mkTurn r (join LF (text :: pending)) :: turns)
      | None => (l :: pending, turns)
      end
  end.

(** The turns of a prompt, and the turns without the leading system one. *)
Definition resplit_all (prompt : string) : list ChatTurn :=
  snd (regroup (lines prompt)).

Definition resplit (prompt : string) : list ChatTurn :=
  tl (resplit_all prompt).

(** A turn that re-splitting can tell apart: its role is one of the three
    markers, and no line of its content after the first starts with one. *)
Definition separable (t : ChatTurn) : bool :=
  existsb (String.eqb (role t)) roles
  && forallb unmarked (tl (lines (content t))).

(** Both guards of the chat handler pass: the key is set and the client
    was constructed. *)
Definition configured (p : Process) : bool :=
  truthy (GEMINI_API_KEY p)
  && match genAI p with Some _ => true | None => false end.

(** The plan a chat call makes in process [p], when it gets to make one. *)
Definition decision (p : Process) (req_body : option json) : option Plan :=
  match chat p req_body with
  | GenerateContent _ _ _ =>
      match plan req_body with
      | inr pl => Some pl
      | inl _ => None
      end
  | Respond _ => None
  end.

(** The model client is live: it was constructed, and the model behind it
    answers a call. *)
Definition model_live (p : Process)
  (generateContent : string -> string -> Try string) : Prop :=
  genAI p <> None
  /\ exists prompt text, generateContent "gemini-2.0-flash" prompt = ok text.

(** The document [read] would find. *)
Definition stored (key : string) (m : Mongo) : option Project :=
  find (has_id key) (projects m).

(** What an update must leave alone in a document. *)
Definition frame_of (d : Project) : N * string * json * json * Z :=
  (_id d, id d, schemaType d, conversation d, createdAt d).

(** ** Further vocabulary *)

(** What the callback of line 116 answers on a message that is not [null]:
    whether its own [role] is the string [user]. *)
Definition role_is_user (m : json) : bool :=
  match m with
  | JObj fields =>
      match lookup "role" fields with
      | Some (JStr s) => String.eqb s "user"
      | _ => false
      end
  | _ => false
  end.

(** Lines 19 and 20, over [process.env]. *)
Definition requiredEnvVars : list string := ["GEMINI_API_KEY"; "MONGODB_URI"].

Definition missingEnvVars (env : string -> option string) : list string :=
  filter (fun envVar => negb (truthy (env envVar))) requiredEnvVars.

(** Start-up from the environment. *)
Definition boot (env : string -> option string)
  (construct : string -> Try GoogleGenerativeAI) (m : Mongo)
  : Process * Mongo :=
  startServer (env "GEMINI_API_KEY") (env "MONGODB_URI")
              (env "MONGODB_DB_NAME") construct m.

(** A message whose role and content print without recursion: neither is
    an array.  (A message that is no object has neither.) *)
Definition is_array (v : option json) : bool :=
  match v with
  | Some (JArr _) => true
  | _ => false
  end.

Definition prints_flat (m : json) : bool :=
  match m with
  | JObj fields =>
      negb (is_array (lookup "role" fields))
      && negb (is_array (lookup "content" fields))
  | _ => true
  end.

(** A submitted field that is missing or is [null], a boolean, a number or
    a string: nothing in it that the driver could fail to serialise. *)
Definition scalar (v : option json) : bool :=
  match v with
  | Some (JArr _) => false
  | Some (JObj _) => false
  | _ => true
  end.

(** The ids of the collection, in natural order. *)
Definition ids (m : Mongo) : list string := map id (projects m).

(** * Properties *)

(** ** The chat handler on well-formed turns *)

Lemma is_user_turn_json (t : ChatTurn) :
  is_user (turn_json t) = ok (is_user_turn t).
Proof. reflexivity. Qed.

Lemma render_turn_json (t : ChatTurn) :
  render (turn_json t) = ok (role t ++ ": " ++ content t).
Proof. reflexivity. Qed.

Lemma filterM_turns (turns : list ChatTurn) :
  filterM is_user (map turn_json turns)
  = ok (map turn_json (filter is_user_turn turns)).
Proof.
  induction turns as [|t turns IH]; [reflexivity|].
  cbn [map filterM filter]. rewrite is_user_turn_json, IH.
  cbn [bind ok]. now destruct (is_user_turn t).
Qed.

Lemma mapM_render_turns (turns : list ChatTurn) :
  mapM render (map turn_json turns)
  = ok (map (fun t => role t ++ ": " ++ content t) turns).
Proof.
  induction turns as [|t turns IH]; [reflexivity|].
  cbn [map mapM]. now rewrite render_turn_json, IH.
Qed.

Lemma users_of_turns (turns : list ChatTurn) :
  userMessages (Some (JArr (map turn_json turns)))
  = ok (map turn_json (filter is_user_turn turns)).
Proof. apply filterM_turns. Qed.

(** The plan of the [try] block on a body of turns: the threshold on the
    user turns, and the spec's serialisation behind the system turn. *)
Lemma plan_turns (turns : list ChatTurn) :
  plan (chat_body turns)
  = ok (mkPlan (3 <=? userTurnCount turns)%nat
          (serialize
             (mkTurn "system" (systemPrompt (3 <=? userTurnCount turns)%nat)
                :: turns))).
Proof.
  unfold plan, chat_body.
  change (destructure (Some (JObj [("messages", JArr (map turn_json turns))]))
            "messages")
    with (ok (A := option json) (Some (JArr (map turn_json turns)))).
  cbn [bind ok]. rewrite users_of_turns. cbn [bind ok spread].
  unfold shouldGenerateSchema. rewrite length_map. fold (userTurnCount turns).
  set (g := (3 <=? userTurnCount turns)%nat).
  cbn [mapM]. rewrite mapM_render_turns.
  change (render (JObj [("role", JStr "system");
                        ("content", JStr (systemPrompt g))]))
    with (ok (A := string) ("system" ++ ": " ++ systemPrompt g)).
  reflexivity.
Qed.

Lemma instruction_mode_of (g : bool) : instruction (mode_of g) = systemPrompt g.
Proof. now destruct g. Qed.

(** C1. For every sequence of chat turns the chat handler is given, the
    policy mode is GENERATE exactly when at least 3 turns have the role
    [user] and CLARIFY exactly when fewer have; the system instruction of
    the prompt is the one of that mode; the empty sequence and any sequence
    without user turns give CLARIFY, two user turns still give CLARIFY and
    three give GENERATE. *)
Theorem chat_mode_threshold (turns : list ChatTurn) :
  exists mode : Mode,
    chat_mode (chat_body turns) = Some mode
    /\ (mode = GENERATE <-> 3 <= userTurnCount turns)
    /\ (mode = CLARIFY <-> userTurnCount turns < 3)
    /\ plan (chat_body turns)
       = ok (mkPlan (3 <=? userTurnCount turns)%nat
               (serialize (mkTurn "system" (instruction mode) :: turns)))
    /\ chat_mode (chat_body []) = Some CLARIFY
    /\ (userTurnCount turns = 0 -> mode = CLARIFY)
    /\ (userTurnCount turns = 2 -> mode = CLARIFY)
    /\ (userTurnCount turns = 3 -> mode = GENERATE).
Proof.
  exists (mode_of (3 <=? userTurnCount turns)%nat).
  assert (Hmode : chat_mode (chat_body turns)
                  = Some (mode_of (3 <=? userTurnCount turns)%nat)).
  { unfold chat_mode. now rewrite plan_turns. }
  split; [exact Hmode|].
  rewrite instruction_mode_of.
  split; [|split; [|split; [apply plan_turns|split; [reflexivity|]]]].
  - destruct (Nat.leb_spec 3 (userTurnCount turns)) as [H|H]; cbn.
    + split; [intros _; exact H|reflexivity].
    + split; [discriminate|lia].
  - destruct (Nat.leb_spec 3 (userTurnCount turns)) as [H|H]; cbn.
    + split; [discriminate|lia].
    + split; [intros _; exact H|reflexivity].
  - repeat split; intros ->; reflexivity.
Qed.

(** ** Splitting into lines and joining back *)

Lemma lines_cons (s : string) : exists l ls, lines s = l :: ls.
Proof.
  induction s as [|c s (l & ls & IH)]; cbn [lines]; [now eexists _, _|].
  destruct (is_LF c); [now eexists _, _|]. rewrite IH. now eexists _, _.
Qed.

Lemma is_LF_true (c : ascii) : is_LF c = true -> c = "010"%char.
Proof. apply Ascii.eqb_eq. Qed.

Lemma join_cons2 (sep x y : string) (rest : list string) :
  join sep (x :: y :: rest) = x ++ sep ++ join sep (y :: rest).
Proof. reflexivity. Qed.

Lemma LF_append (s : string) : LF ++ s = String "010"%char s.
Proof. reflexivity. Qed.

Lemma append_empty (s : string) : s ++ "" = s.
Proof. induction s as [|c s IH]; cbn; [reflexivity|now rewrite IH]. Qed.

Lemma append_assoc (a b c : string) : (a ++ b) ++ c = a ++ b ++ c.
Proof. induction a as [|x a IH]; cbn; [reflexivity|now rewrite IH]. Qed.

Lemma concat_empty_cons (x : string) (rest : list string) :
  String.concat "" (x :: rest) = x ++ String.concat "" rest.
Proof. destruct rest; cbn; [now rewrite append_empty|reflexivity]. Qed.

Lemma join_lines (s : string) : join LF (lines s) = s.
Proof.
  induction s as [|c s IH]; [reflexivity|]. cbn [lines].
  destruct (lines_cons s) as (l & ls & Hs). rewrite Hs in *.
  destruct (is_LF c) eqn:Hc.
  - apply is_LF_true in Hc. subst c.
    rewrite join_cons2, IH. reflexivity.
  - destruct ls as [|l' ls].
    + cbn in *. now rewrite IH.
    + rewrite join_cons2 in *. cbn [append]. now rewrite IH.
Qed.

Lemma lines_app_LF (a b : string) :
  lines (a ++ LF ++ b) = (lines a ++ lines b)%list.
Proof.
  induction a as [|c a IH]; [reflexivity|].
  cbn [append lines]. rewrite IH.
  destruct (is_LF c); [reflexivity|].
  now destruct (lines_cons a) as (l & ls & ->).
Qed.

(** ** Role markers *)

Lemma marker_marked (r text : string) :
  In r roles -> marker (r ++ ": " ++ text) = Some (r, text).
Proof.
  unfold roles. cbn [In].
  intros [<-|[<-|[<-|[]]]]; reflexivity.
Qed.

Lemma lines_marked (r text : string) :
  In r roles ->
  lines (r ++ ": " ++ text)
  = (r ++ ": " ++ hd EmptyString (lines text)) :: tl (lines text).
Proof.
  unfold roles. cbn [In].
  destruct (lines_cons text) as (l & ls & Ht).
  intros [<-|[<-|[<-|[]]]]; cbn; rewrite Ht; reflexivity.
Qed.

Lemma role_in_roles (t : ChatTurn) :
  existsb (String.eqb (role t)) roles = true -> In (role t) roles.
Proof.
  intros H. apply existsb_exists in H as (r & Hin & Heq).
  apply String.eqb_eq in Heq. now rewrite Heq.
Qed.

Lemma lines_serialize (t : ChatTurn) (turns : list ChatTurn) :
  lines (serialize (t :: turns))
  = concat (map (fun t => lines (role t ++ ": " ++ content t)) (t :: turns)).
Proof.
  revert t. induction turns as [|t' turns IH]; intros t.
  - cbn. now rewrite app_nil_r.
  - unfold serialize in *. cbn [map] in *. rewrite join_cons2, lines_app_LF.
    rewrite IH. reflexivity.
Qed.

(** ** Regrouping lines into turns *)

Lemma regroup_unmarked (ls rest : list string) :
  forallb unmarked ls = true ->
  regroup (ls ++ rest)%list
  = ((ls ++ fst (regroup rest))%list, snd (regroup rest)).
Proof.
  induction ls as [|l ls IH]; cbn [forallb app regroup].
  - intros _. now destruct (regroup rest).
  - intros H. apply andb_prop in H as [Hl Hls]. rewrite (IH Hls).
    unfold unmarked in Hl. now destruct (marker l).
Qed.

Lemma regroup_turn (t : ChatTurn) (rest : list string) :
  separable t = true ->
  fst (regroup rest) = [] ->
  regroup (lines (role t ++ ": " ++ content t) ++ rest)%list
  = ([], t :: snd (regroup rest)).
Proof.
  intros Ht Hrest. unfold separable in Ht.
  apply andb_prop in Ht as [Hrole Hcont]. apply role_in_roles in Hrole.
  rewrite (lines_marked _ _ Hrole). cbn [app regroup].
  rewrite (regroup_unmarked _ _ Hcont), Hrest, app_nil_r.
  rewrite (marker_marked _ _ Hrole).
  destruct (lines_cons (content t)) as (l & ls & Hc).
  pose proof (join_lines (content t)) as Hj. rewrite Hc in *. cbn [hd tl].
  rewrite Hj. now destruct t.
Qed.

Lemma regroup_turns (turns : list ChatTurn) :
  forallb separable turns = true ->
  regroup (concat (map (fun t => lines (role t ++ ": " ++ content t)) turns))
  = ([], turns).
Proof.
  induction turns as [|t turns IH]; [reflexivity|].
  cbn [forallb map concat]. intros H. apply andb_prop in H as [Ht Hts].
  specialize (IH Hts). rewrite (regroup_turn _ _ Ht); now rewrite IH.
Qed.

(** Re-splitting inverts the serialisation on separable turns. *)
Lemma resplit_all_serialize (turns : list ChatTurn) :
  forallb separable turns = true ->
  resplit_all (serialize turns) = turns.
Proof.
  intros H. unfold resplit_all. destruct turns as [|t turns].
  - reflexivity.
  - now rewrite lines_serialize, regroup_turns.
Qed.

Lemma system_turn_separable (g : bool) :
  separable (mkTurn "system" (systemPrompt g)) = true.
Proof. destruct g; vm_compute; reflexivity. Qed.

(** The serialisation puts a separator before every turn but the first and
    none after the last. *)
Lemma serialize_cons (t : ChatTurn) (turns : list ChatTurn) :
  serialize (t :: turns)
  = (role t ++ ": " ++ content t)
    ++ String.concat ""
         (map (fun t => LF ++ role t ++ ": " ++ content t) turns).
Proof.
  revert t. induction turns as [|t' turns IH]; intros t.
  - cbn. now rewrite !append_empty.
  - unfold serialize in *. cbn [map] in *.
    rewrite join_cons2, IH, concat_empty_cons, !append_assoc. reflexivity.
Qed.

(** ** Prompt assembly *)

(** C2, as amended. For every turn sequence, prompt assembly puts one
    synthetic [system] turn in front and serialises the combined sequence as
    ["<role>: <content>"] per turn, joined by newlines in sequence order,
    with no trailing separator; and when every turn has one of the roles
    [system], [user], [assistant] and no line of a content after its first
    starts with a role marker, re-splitting the prompt on the role markers
    recovers the system turn followed by the original sequence. *)
Theorem prompt_roundtrip_separable (turns : list ChatTurn) :
  exists (pl : Plan) (sys : ChatTurn),
    plan (chat_body turns) = ok pl
    /\ role sys = "system"
    /\ content sys = systemPrompt (generate pl)
    /\ prompt pl = serialize (sys :: turns)
    /\ prompt pl
       = ("system: " ++ content sys)
         ++ String.concat ""
              (map (fun t => LF ++ role t ++ ": " ++ content t) turns)
    /\ (forallb separable turns = true ->
        resplit_all (prompt pl) = sys :: turns
        /\ resplit (prompt pl) = turns).
Proof.
  rewrite plan_turns.
  set (g := (3 <=? userTurnCount turns)%nat).
  exists (mkPlan g (serialize (mkTurn "system" (systemPrompt g) :: turns))),
         (mkTurn "system" (systemPrompt g)).
  cbn [role content generate prompt].
  split; [reflexivity|]. split; [reflexivity|]. split; [reflexivity|].
  split; [reflexivity|].
  split; [apply (serialize_cons (mkTurn "system" (systemPrompt g)))|].
  intros Hsep.
  assert (Hall : resplit_all (serialize (mkTurn "system" (systemPrompt g)
                                           :: turns))
                 = mkTurn "system" (systemPrompt g) :: turns).
  { apply resplit_all_serialize. cbn [forallb].
    now rewrite system_turn_separable, Hsep. }
  split; [exact Hall|]. unfold resplit. now rewrite Hall.
Qed.

Lemma prompt_roundtrip_separable_witness :
  let turns := [mkTurn "user" "I need a blog";
                mkTurn "assistant" "Who writes the posts?"] in
  forallb separable turns = true
  /\ exists (pl : Plan) (sys : ChatTurn),
       plan (chat_body turns) = ok pl
       /\ role sys = "system"
       /\ prompt pl = serialize (sys :: turns)
       /\ resplit_all (prompt pl) = sys :: turns
       /\ resplit (prompt pl) = turns.
Proof.
  cbv zeta. split; [vm_compute; reflexivity|].
  destruct (prompt_roundtrip_separable
              [mkTurn "user" "I need a blog";
               mkTurn "assistant" "Who writes the posts?"])
    as (pl & sys & Hplan & Hrole & _ & Hser & _ & Hback).
  exists pl, sys. split; [exact Hplan|]. split; [exact Hrole|].
  split; [exact Hser|]. apply Hback. vm_compute. reflexivity.
Defined.

(** C2 as stated fails: a content with a newline followed by a role marker
    flattens to the prompt of a different turn sequence, so re-splitting
    gives that other sequence, and no function of the prompt could give
    both. *)
Lemma prompt_roundtrip_fails :
  let one := [mkTurn "user" ("a" ++ LF ++ "user: b")] in
  let two := [mkTurn "user" "a"; mkTurn "user" "b"] in
  plan (chat_body one) = plan (chat_body two)
  /\ one <> two
  /\ (exists pl, plan (chat_body one) = ok pl
                 /\ resplit (prompt pl) = two
                 /\ resplit (prompt pl) <> one)
  /\ ~ (exists unflatten : string -> list ChatTurn,
          forall turns pl, plan (chat_body turns) = ok pl ->
                           unflatten (prompt pl) = turns).
Proof.
  cbv zeta.
  assert (Hsame : plan (chat_body [mkTurn "user" ("a" ++ LF ++ "user: b")])
                  = plan (chat_body [mkTurn "user" "a"; mkTurn "user" "b"])).
  { rewrite !plan_turns. reflexivity. }
  split; [exact Hsame|]. split; [discriminate|]. split.
  - rewrite plan_turns. eexists. split; [reflexivity|].
    split; [vm_compute; reflexivity|vm_compute; discriminate].
  - intros (unflatten & Hun).
    pose proof (Hun [mkTurn "user" ("a" ++ LF ++ "user: b")] _
                  (plan_turns _)) as H1.
    pose proof (Hun [mkTurn "user" "a"; mkTurn "user" "b"] _
                  (plan_turns _)) as H2.
    cbn [prompt] in H1, H2.
    assert (Heq : serialize
                    (mkTurn "system"
                       (systemPrompt
                          (3 <=? userTurnCount
                                   [mkTurn "user" ("a" ++ LF ++ "user: b")])%nat)
                       :: [mkTurn "user" ("a" ++ LF ++ "user: b")])
                  = serialize
                      (mkTurn "system"
                         (systemPrompt
                            (3 <=? userTurnCount
                                     [mkTurn "user" "a"; mkTurn "user" "b"])%nat)
                         :: [mkTurn "user" "a"; mkTurn "user" "b"]))
      by reflexivity.
    rewrite Heq in H1. rewrite H1 in H2. discriminate H2.
Qed.

(** ** The chat handler's guards, replies and errors *)

Lemma chat_configured (p : Process) (req_body : option json) :
  configured p = true ->
  chat p req_body
  = match plan req_body with
    | inl error => Respond (chat_catch error)
    | inr pl => GenerateContent "gemini-2.0-flash" (prompt pl) chat_reply
    end.
Proof.
  unfold configured, chat. intros H. apply andb_prop in H as [Hkey Hai].
  rewrite Hkey. cbn [negb]. now destruct (genAI p).
Qed.

Lemma chat_unconfigured (p : Process) (req_body : option json) :
  configured p = false ->
  exists msg, msg <> "" /\
    chat p req_body = Respond (mkResponse 500 [("error", VStr msg)]).
Proof.
  unfold configured, chat. intros H.
  destruct (truthy (GEMINI_API_KEY p)); cbn [negb].
  - destruct (genAI p); [discriminate|].
    eexists. split; [|reflexivity]. discriminate.
  - eexists. split; [|reflexivity]. discriminate.
Qed.

(** C3. For every chat call that succeeds (answers 200), the response is
    exactly [{ content: text, role: "assistant" }] where [text] is what the
    model generated for the assembled prompt, unchanged. *)
Theorem chat_success_verbatim
  (generateContent : string -> string -> Try string)
  (p : Process) (req_body : option json) :
  status (perform generateContent (chat p req_body)) = 200 ->
  exists (pl : Plan) (text : string),
    configured p = true
    /\ plan req_body = ok pl
    /\ generateContent "gemini-2.0-flash" (prompt pl) = ok text
    /\ perform generateContent (chat p req_body)
       = mkResponse 200 [("content", VStr text); ("role", VStr "assistant")].
Proof.
  destruct (configured p) eqn:Hp.
  - rewrite (chat_configured _ _ Hp).
    destruct (plan req_body) as [error|pl]; cbn [perform].
    + discriminate.
    + unfold chat_reply.
      destruct (generateContent "gemini-2.0-flash" (prompt pl))
        as [error|text] eqn:Hgen; [discriminate|].
      intros _. now exists pl, text.
  - destruct (chat_unconfigured p req_body Hp) as (msg & _ & ->).
    discriminate.
Qed.

Lemma chat_success_verbatim_witness :
  let gen := fun _ _ : string => ok "Which collections do you need?" in
  let p := mkProcess (Some "key") (Some (mkGenAI "key")) None in
  let req_body := chat_body [mkTurn "user" "I need a blog"] in
  status (perform gen (chat p req_body)) = 200
  /\ exists (pl : Plan) (text : string),
       configured p = true
       /\ plan req_body = ok pl
       /\ gen "gemini-2.0-flash" (prompt pl) = ok text
       /\ perform gen (chat p req_body)
          = mkResponse 200
              [("content", VStr text); ("role", VStr "assistant")].
Proof.
  cbv zeta. split; [reflexivity|].
  apply (chat_success_verbatim
           (fun _ _ => ok "Which collections do you need?")
           (mkProcess (Some "key") (Some (mkGenAI "key")) None)
           (chat_body [mkTurn "user" "I need a blog"])).
  reflexivity.
Defined.

(** C9. Two chat calls with the same turn sequence make the same decision
    and assemble the same prompt, in any two processes whose guards pass,
    over any two stores and after any two histories of earlier requests:
    the mode is the one the number of user turns gives and the prompt is
    the serialisation of the system instruction of that mode followed by
    the turns, both functions of the turns alone; given the same answer of
    the model the two responses are equal, and the call leaves the store as
    it found it.  For every body, well-formed or not, the two processes run
    the same handler. *)
Theorem chat_deterministic (p1 p2 : Process)
  (h1 h2 : list (bool * Request)) (m1 m2 : Mongo)
  (turns : list ChatTurn) (answer : Try string) :
  configured p1 = true ->
  configured p2 = true ->
  let req_body := chat_body turns in
  let mode := mode_of (3 <=? userTurnCount turns)%nat in
  let text := serialize (mkTurn "system" (instruction mode) :: turns) in
  (option_map (fun pl => mode_of (generate pl)) (decision p1 req_body)
   = Some mode
   /\ option_map (fun pl => mode_of (generate pl)) (decision p2 req_body)
      = Some mode)
  /\ (prompt_sent (chat p1 req_body) = Some text
      /\ prompt_sent (chat p2 req_body) = Some text)
  /\ fst (handle p1 (POST_chat req_body answer) (run p1 h1 m1))
     = fst (handle p2 (POST_chat req_body answer) (run p2 h2 m2))
  /\ snd (handle p1 (POST_chat req_body answer) (run p1 h1 m1))
     = run p1 h1 m1
  /\ (forall any_body, chat p1 any_body = chat p2 any_body).
Proof.
  intros H1 H2. cbv zeta. rewrite instruction_mode_of.
  unfold decision. cbn [handle fst snd].
  rewrite !(chat_configured _ _ H1), !(chat_configured _ _ H2).
  rewrite plan_turns. cbn [ok option_map generate prompt_sent prompt perform].
  repeat split.
  intros any_body.
  now rewrite (chat_configured _ _ H1), (chat_configured _ _ H2).
Qed.

Lemma chat_deterministic_witness :
  let p1 := mkProcess (Some "key") (Some (mkGenAI "key")) None in
  let p2 := mkProcess (Some "other") (Some (mkGenAI "other"))
              (Some (mkDb "schema_designer")) in
  let h1 := [] in
  let h2 := [(true, POST_project (Some (JObj [("name", JStr "Blog")]))
                      "V1StGXR8" 1000);
             (true, POST_chat (chat_body [mkTurn "user" "hello"])
                      (ok "hi"))] in
  let m1 := mkMongo false false [] 1 [] in
  let m2 := mkMongo true true [] 1 [] in
  let turns := [mkTurn "user" "I need a blog"] in
  let answer := ok (A := string) "Which collections do you need?" in
  let req_body := chat_body turns in
  let mode := mode_of (3 <=? userTurnCount turns)%nat in
  let text := serialize (mkTurn "system" (instruction mode) :: turns) in
  (configured p1 = true /\ configured p2 = true)
  /\ (option_map (fun pl => mode_of (generate pl)) (decision p1 req_body)
      = Some mode
      /\ option_map (fun pl => mode_of (generate pl)) (decision p2 req_body)
         = Some mode)
  /\ (prompt_sent (chat p1 req_body) = Some text
      /\ prompt_sent (chat p2 req_body) = Some text)
  /\ fst (handle p1 (POST_chat req_body answer) (run p1 h1 m1))
     = fst (handle p2 (POST_chat req_body answer) (run p2 h2 m2))
  /\ snd (handle p1 (POST_chat req_body answer) (run p1 h1 m1))
     = run p1 h1 m1
  /\ (forall any_body, chat p1 any_body = chat p2 any_body).
Proof.
  cbv zeta. split; [split; reflexivity|].
  apply (chat_deterministic
           (mkProcess (Some "key") (Some (mkGenAI "key")) None)
           (mkProcess (Some "other") (Some (mkGenAI "other"))
              (Some (mkDb "schema_designer")))
           []
           [(true, POST_project (Some (JObj [("name", JStr "Blog")]))
                     "V1StGXR8" 1000);
            (true, POST_chat (chat_body [mkTurn "user" "hello"]) (ok "hi"))]
           (mkMongo false false [] 1 [])
           (mkMongo true true [] 1 [])
           [mkTurn "user" "I need a blog"]
           (ok "Which collections do you need?"));
    reflexivity.
Defined.

Lemma plan_without_array (req_body : option json) :
  (forall items, destructure req_body "messages" <> ok (Some (JArr items))) ->
  exists msg, msg <> "" /\ plan req_body = throw (TypeError msg).
Proof.
  intros Hno. unfold plan.
  destruct req_body as [[| | | | |fields]|];
    try (eexists; split; [|reflexivity]; discriminate).
  cbn [destructure bind ok] in *.
  destruct (lookup "messages" fields) as [[| | | |items|]|];
    try (eexists; split; [|reflexivity]; discriminate).
  now destruct (Hno items).
Qed.

(** C10. For every chat request whose body has no [messages] array
    ([messages] missing, [null], or anything that is not an array; also a
    missing body), the handler answers 500 with a non-empty [error] message
    and neither crashes nor answers 400; when the two guards pass, that
    message is the one of the TypeError thrown in the [try] block and caught
    by the handler's [catch]. *)
Theorem chat_without_messages_array (p : Process) (req_body : option json) :
  (forall items, destructure req_body "messages" <> ok (Some (JArr items))) ->
  exists msg : string,
    msg <> ""
    /\ chat p req_body = Respond (mkResponse 500 [("error", VStr msg)])
    /\ (forall gen, status (perform gen (chat p req_body)) = 500)
    /\ (configured p = true ->
        plan req_body = throw (TypeError msg)
        /\ chat p req_body = Respond (chat_catch (TypeError msg))).
Proof.
  intros Hno. destruct (plan_without_array req_body Hno) as (msg & Hmsg & Hpl).
  destruct (configured p) eqn:Hp.
  - exists msg. rewrite (chat_configured _ _ Hp), Hpl. unfold throw.
    assert (Hcatch : chat_catch (TypeError msg)
                     = mkResponse 500 [("error", VStr msg)]).
    { unfold chat_catch, TypeError, or_else, res_status_json. cbn [message].
      destruct msg; [now destruct Hmsg|reflexivity]. }
    rewrite Hcatch. repeat split; trivial.
  - destruct (chat_unconfigured p req_body Hp) as (msg' & Hmsg' & ->).
    exists msg'. split; [exact Hmsg'|]. split; [reflexivity|].
    split; [reflexivity|]. intros Habs. discriminate Habs.
Qed.

Lemma chat_without_messages_array_witness :
  let p := mkProcess (Some "key") (Some (mkGenAI "key")) None in
  let req_body := Some (JObj [("messages", JStr "hello")]) in
  (forall items, destructure req_body "messages" <> ok (Some (JArr items)))
  /\ exists msg : string,
       msg <> ""
       /\ chat p req_body = Respond (mkResponse 500 [("error", VStr msg)])
       /\ (forall gen, status (perform gen (chat p req_body)) = 500)
       /\ (configured p = true ->
           plan req_body = throw (TypeError msg)
           /\ chat p req_body = Respond (chat_catch (TypeError msg))).
Proof.
  cbv zeta.
  assert (H : forall items,
             destructure (Some (JObj [("messages", JStr "hello")])) "messages"
             <> ok (Some (JArr items))) by (intros items; discriminate).
  split; [exact H|].
  exact (chat_without_messages_array
           (mkProcess (Some "key") (Some (mkGenAI "key")) None)
           (Some (JObj [("messages", JStr "hello")])) H).
Defined.

(** ** The store handlers, evaluated *)

Lemma get_project_live (p : Process) (d : Db) (key : string) (m : Mongo) :
  db p = Some d ->
  reachable m = true ->
  get_project p key m
  = (match stored key m with
     | Some project => res_json (view project)
     | None => res_status_json 404 [("error", VStr "Project not found")]
     end, called (FindOne key) m).
Proof.
  intros Hdb Hup. unfold get_project, try_catch, bindA, findOne, send, stored.
  rewrite Hdb. cbn [called reachable projects]. rewrite Hup.
  now destruct (find (has_id key) (projects m)).
Qed.

Lemma post_project_eval (p : Process) (d : Db) (req_body : option json)
  (fresh : string) (now : Z) (m : Mongo)
  (name schema schemaType conversation : option json) :
  db p = Some d ->
  destructure req_body "name" = ok name ->
  destructure req_body "schema" = ok schema ->
  destructure req_body "schemaType" = ok schemaType ->
  destructure req_body "conversation" = ok conversation ->
  post_project p req_body fresh now m
  = if reachable m then
      if unique_id m && existsb (has_id fresh) (projects m)
      then (res_status_json 500 [("error", VStr "Failed to create project")],
            called (InsertOne fresh) m)
      else (res_status_json 201 [("id", VStr fresh)],
            mkMongo (reachable m) (unique_id m)
              (projects m
               ++ [mkProject (next_oid m) fresh (bson name) (bson schema)
                     (bson schemaType) (bson conversation) now now])%list
              (N.succ (next_oid m)) (calls m ++ [InsertOne fresh])%list)
    else (res_status_json 500 [("error", VStr "Failed to create project")],
          called (InsertOne fresh) m).
Proof.
  intros Hdb Hn Hs Ht Hc.
  unfold post_project, try_catch, bindA, lift, insertOne, send.
  rewrite Hdb, Hn, Hs, Ht, Hc. unfold ok.
  cbn [called reachable projects unique_id next_oid calls].
  destruct (reachable m); [|reflexivity].
  now destruct (unique_id m && existsb (has_id fresh) (projects m)).
Qed.

Lemma put_project_eval (p : Process) (d : Db) (key : string)
  (req_body : option json) (now : Z) (m : Mongo)
  (name schema : option json) :
  db p = Some d ->
  destructure req_body "name" = ok name ->
  destructure req_body "schema" = ok schema ->
  put_project p key req_body now m
  = if reachable m then
      (if Nat.eqb
            (snd (update_first key (set_fields (bson name) (bson schema) now)
                    (projects m))) 0
       then res_status_json 404 [("error", VStr "Project not found")]
       else res_json [("success", VBool true)],
       with_projects
         (fst (update_first key (set_fields (bson name) (bson schema) now)
                 (projects m)))
         (called (UpdateOne key) m))
    else (res_status_json 500 [("error", VStr "Failed to update project")],
          called (UpdateOne key) m).
Proof.
  intros Hdb Hn Hs.
  unfold put_project, try_catch, bindA, lift, updateOne, send.
  rewrite Hdb, Hn, Hs. unfold ok.
  cbn [called reachable projects].
  destruct (reachable m); [|reflexivity].
  destruct (update_first key _ (projects m)) as [ps n]. cbn [fst snd].
  now destruct (Nat.eqb n 0).
Qed.

Lemma get_status_eval (p : Process) (m : Mongo) :
  get_status p m
  = (mkResponse 200
       [("server", VBool true);
        ("gemini", VBool (truthy (GEMINI_API_KEY p)));
        ("database",
         VBool (match db p with Some _ => reachable m | None => false end))],
     match db p with Some _ => called Ping m | None => m end).
Proof.
  unfold get_status, command_ping, send. destruct (db p); [|reflexivity].
  cbn [called reachable]. now destruct (reachable m).
Qed.

(** ** Documents and [updateOne] *)

Lemma set_fields_id (n s : json) (now : Z) (d : Project) :
  id (set_fields n s now d) = id d.
Proof. reflexivity. Qed.




Lemma update_first_length (key : string) (f : Project -> Project)
  (ps : list Project) :
  length (fst (update_first key f ps)) = length ps.
Proof.
  induction ps as [|x ps IH]; [reflexivity|]. cbn [update_first].
  destruct (has_id key x); [reflexivity|].
  destruct (update_first key f ps). cbn [fst length] in *. now rewrite IH.
Qed.



Lemma find_app_last (key : string) (ps : list Project) (d : Project) :
  find (has_id key) ps = None ->
  find (has_id key) (ps ++ [d])%list
  = if has_id key d then Some d else None.
Proof.
  induction ps as [|x ps IH]; [reflexivity|]. cbn [find app].
  destruct (has_id key x); [discriminate|]. exact IH.
Qed.

Lemma existsb_find_none (key : string) (ps : list Project) :
  existsb (has_id key) ps = false -> find (has_id key) ps = None.
Proof.
  induction ps as [|x ps IH]; [reflexivity|]. cbn [existsb find].
  destruct (has_id key x); [discriminate|]. exact IH.
Qed.

(** ** Update *)



(** ** Create, then read *)

(** C5. For every create call that returns an id (201), submitted with
    [name], [schema], [schemaType] and [conversation], where the unique index
    on [id] is in place or the minted id is not in the store yet, the read of
    that id answers 200 with a view of exactly the seven fields [id], [name],
    [schema], [schemaType], [conversation], [createdAt], [updatedAt], in this
    order and without the store's [_id]; the four submitted values come back
    as they were, and [createdAt] and [updatedAt] are both the date of the
    creation. *)
Theorem create_then_read (p : Process) (req_body : option json)
  (fresh : string) (now : Z) (m m' : Mongo) (r : Response)
  (name' schema' schemaType' conversation' : json) :
  post_project p req_body fresh now m = (r, m') ->
  status r = 201 ->
  unique_id m = true \/ stored fresh m = None ->
  destructure req_body "name" = ok (Some name') ->
  destructure req_body "schema" = ok (Some schema') ->
  destructure req_body "schemaType" = ok (Some schemaType') ->
  destructure req_body "conversation" = ok (Some conversation') ->
  r = mkResponse 201 [("id", VStr fresh)]
  /\ exists seen : Response,
       get_project p fresh m' = (seen, called (FindOne fresh) m')
       /\ seen = mkResponse 200
                   [("id", VStr fresh);
                    ("name", VJson name');
                    ("schema", VJson schema');
                    ("schemaType", VJson schemaType');
                    ("conversation", VJson conversation');
                    ("createdAt", VDate now);
                    ("updatedAt", VDate now)]
       /\ map fst (body seen)
          = ["id"; "name"; "schema"; "schemaType"; "conversation";
             "createdAt"; "updatedAt"]
       /\ ~ In "_id" (map fst (body seen)).
Proof.
  intros Hpost Hstatus Hfresh Hn Hs Ht Hc.
  destruct (db p) as [d|] eqn:Hdb.
  2:{ unfold post_project in Hpost. rewrite Hdb in Hpost.
      injection Hpost as <- <-. discriminate Hstatus. }
  rewrite (post_project_eval p d req_body fresh now m _ _ _ _ Hdb Hn Hs Ht Hc)
    in Hpost.
  destruct (reachable m) eqn:Hup.
  2:{ injection Hpost as <- <-. discriminate Hstatus. }
  destruct (unique_id m && existsb (has_id fresh) (projects m)) eqn:Hdup.
  { injection Hpost as <- <-. discriminate Hstatus. }
  injection Hpost as <- <-. split; [reflexivity|].
  assert (Hnone : find (has_id fresh) (projects m) = None).
  { destruct Hfresh as [Hidx|Hnone]; [|exact Hnone].
    rewrite Hidx in Hdup. now apply existsb_find_none. }
  eexists. split.
  - match goal with
    | |- get_project p fresh ?M = _ =>
        rewrite (get_project_live p d fresh M Hdb eq_refl)
    end.
    unfold stored.
    cbn [projects]. rewrite (find_app_last _ _ _ Hnone).
    unfold has_id at 1. cbn [id]. rewrite String.eqb_refl. reflexivity.
  - cbn [bson view id name schema schemaType conversation createdAt updatedAt].
    split; [reflexivity|]. split; [reflexivity|].
    cbn. intros [H|[H|[H|[H|[H|[H|[H|[]]]]]]]]; discriminate H.
Qed.

Lemma create_then_read_witness :
  let p := mkProcess None None (Some (mkDb "schema_designer")) in
  let m := mkMongo true true [] 1 [] in
  let req_body :=
    Some (JObj [("name", JStr "Blog"); ("schema", JObj []);
                ("schemaType", JStr "mongodb"); ("conversation", JArr [])]) in
  let r := mkResponse 201 [("id", VStr "V1StGXR8")] in
  let m' := mkMongo true true
              [mkProject 1 "V1StGXR8" (JStr "Blog") (JObj []) (JStr "mongodb")
                 (JArr []) 1000 1000] 2 [InsertOne "V1StGXR8"] in
  (post_project p req_body "V1StGXR8" 1000 m = (r, m')
   /\ status r = 201
   /\ (unique_id m = true \/ stored "V1StGXR8" m = None))
  /\ r = mkResponse 201 [("id", VStr "V1StGXR8")]
  /\ exists seen : Response,
       get_project p "V1StGXR8" m' = (seen, called (FindOne "V1StGXR8") m')
       /\ seen = mkResponse 200
                   [("id", VStr "V1StGXR8");
                    ("name", VJson (JStr "Blog"));
                    ("schema", VJson (JObj []));
                    ("schemaType", VJson (JStr "mongodb"));
                    ("conversation", VJson (JArr []));
                    ("createdAt", VDate 1000);
                    ("updatedAt", VDate 1000)]
       /\ map fst (body seen)
          = ["id"; "name"; "schema"; "schemaType"; "conversation";
             "createdAt"; "updatedAt"]
       /\ ~ In "_id" (map fst (body seen)).
Proof.
  cbv zeta. split; [split; [reflexivity|split; [reflexivity|now left]]|].
  apply (create_then_read
           (mkProcess None None (Some (mkDb "schema_designer")))
           (Some (JObj [("name", JStr "Blog"); ("schema", JObj []);
                        ("schemaType", JStr "mongodb");
                        ("conversation", JArr [])]))
           "V1StGXR8" 1000
           (mkMongo true true [] 1 [])
           (mkMongo true true
              [mkProject 1 "V1StGXR8" (JStr "Blog") (JObj []) (JStr "mongodb")
                 (JArr []) 1000 1000] 2 [InsertOne "V1StGXR8"])
           (mkResponse 201 [("id", VStr "V1StGXR8")])
           (JStr "Blog") (JObj []) (JStr "mongodb") (JArr []));
    try reflexivity.
  now left.
Defined.

(** ** Ids that were never minted *)











(** ** Without a store connection *)

(** [db] is unset exactly when [connectToMongoDB] had no connection string
    or could not connect. *)
Lemma connect_leaves_no_db (uri dbname : option string) (m : Mongo) :
  fst (fst (connectToMongoDB uri dbname m)) = None
  <-> truthy uri = false \/ reachable m = false.
Proof.
  destruct m as [up u ps n cs]. unfold connectToMongoDB.
  destruct (truthy uri); cbn [negb]; [|now split; [left|]].
  destruct up;
    cbv [send createIndex called reachable projects unique_id next_oid calls
         ok throw].
  - destruct (distinct_ids ps); cbv [fst];
      (split; [intros H; discriminate H|intros [H|H]; discriminate H]).
  - cbv [fst]. split; [now right|reflexivity].
Qed.

(** C7. For each of read, create and update, when no store connection was
    established ([db] is unset) the handler answers 500 with the error
    message [Database connection not available], and the store is exactly
    as before: no command was sent to it. *)
Theorem store_unavailable (p : Process) (key : string)
  (req_body : option json) (fresh : string) (now : Z) (m : Mongo) :
  db p = None ->
  get_project p key m = (unavailable, m)
  /\ post_project p req_body fresh now m = (unavailable, m)
  /\ put_project p key req_body now m = (unavailable, m)
  /\ unavailable
     = mkResponse 500 [("error", VStr "Database connection not available")]
  /\ calls (snd (get_project p key m)) = calls m
  /\ calls (snd (post_project p req_body fresh now m)) = calls m
  /\ calls (snd (put_project p key req_body now m)) = calls m.
Proof.
  intros Hdb. unfold get_project, post_project, put_project. rewrite Hdb.
  repeat split.
Qed.

Lemma store_unavailable_witness :
  let p := mkProcess (Some "key") (Some (mkGenAI "key")) None in
  let m := mkMongo true true [] 1 [] in
  let req_body := Some (JObj [("name", JStr "Blog"); ("schema", JObj [])]) in
  db p = None
  /\ get_project p "V1StGXR8" m = (unavailable, m)
  /\ post_project p req_body "V1StGXR8" 1000 m = (unavailable, m)
  /\ put_project p "V1StGXR8" req_body 1000 m = (unavailable, m)
  /\ unavailable
     = mkResponse 500 [("error", VStr "Database connection not available")]
  /\ calls (snd (get_project p "V1StGXR8" m)) = calls m
  /\ calls (snd (post_project p req_body "V1StGXR8" 1000 m)) = calls m
  /\ calls (snd (put_project p "V1StGXR8" req_body 1000 m)) = calls m.
Proof.
  cbv zeta. split; [reflexivity|].
  apply (store_unavailable
           (mkProcess (Some "key") (Some (mkGenAI "key")) None) "V1StGXR8"
           (Some (JObj [("name", JStr "Blog"); ("schema", JObj [])]))
           "V1StGXR8" 1000 (mkMongo true true [] 1 [])).
  reflexivity.
Defined.

(** ** Status *)

(** C8, as amended. The status handler answers 200 with
    [{ server: true, gemini, database }]; [gemini] is true exactly when the
    environment variable [GEMINI_API_KEY] is set and not empty at the time
    of the request (it reports configuration; the model is not contacted),
    and [database] is true exactly when [db] is set and the ping sent for
    this request was answered.  The collection is not changed. *)
Theorem status_reports (p : Process) (m : Mongo) :
  exists (gemini database : bool) (m' : Mongo),
    get_status p m
    = (mkResponse 200 [("server", VBool true);
                       ("gemini", VBool gemini);
                       ("database", VBool database)], m')
    /\ (gemini = true
        <-> exists key, GEMINI_API_KEY p = Some key /\ key <> "")
    /\ (database = true <-> db p <> None /\ reachable m = true)
    /\ (db p <> None -> calls m' = (calls m ++ [Ping])%list)
    /\ (db p = None -> m' = m)
    /\ projects m' = projects m.
Proof.
  rewrite get_status_eval. do 3 eexists. split; [reflexivity|].
  split; [|split; [|split; [|split]]].
  - unfold truthy. destruct (GEMINI_API_KEY p) as [key|].
    + destruct (String.eqb_spec key "") as [->|Hne]; cbn [negb].
      * split; [discriminate|]. intros (k & [= <-] & Hk). now destruct Hk.
      * split; [|reflexivity]. intros _. now exists key.
    + split; [discriminate|]. intros (k & Hk & _). discriminate Hk.
  - destruct (db p).
    + split; [intros ->; split; [discriminate|reflexivity]|now intros [_ H]].
    + split; [discriminate|]. now intros [H _].
  - destruct (db p); [reflexivity|]. now intros H.
  - now intros ->.
  - now destruct (db p).
Qed.

(** C8 as stated fails for the [gemini] flag: it is true in a process whose
    client was never constructed (the constructor threw at start-up, which
    the source's own [try] provides for), where the chat handler refuses
    every call; and it is true while the model behind a constructed client
    answers nothing.  So the flag does not imply a live model client. *)
Lemma status_gemini_not_live :
  let m := mkMongo true true [] 1 [] in
  let broken :=
    fst (startServer (Some "key") None None
           (fun _ => throw (TypeError "invalid option")) m) in
  let offline := mkProcess (Some "key") (Some (mkGenAI "key")) None in
  let down := fun _ _ : string => throw (A := string) networkError in
  let req_body := chat_body [mkTurn "user" "I need a blog"] in
  (In ("gemini", VBool true) (body (fst (get_status broken m)))
   /\ genAI broken = None
   /\ (forall gen, ~ model_live broken gen)
   /\ chat broken req_body
      = Respond (mkResponse 500
          [("error",
            VStr "Gemini client is not initialized. Please check your API key.")]))
  /\ (In ("gemini", VBool true) (body (fst (get_status offline m)))
      /\ ~ model_live offline down
      /\ status (perform down (chat offline req_body)) = 500)
  /\ ~ (forall p m gen,
          In ("gemini", VBool true) (body (fst (get_status p m))) ->
          model_live p gen).
Proof.
  cbv zeta. split; [|split].
  - split; [cbn; tauto|]. split; [reflexivity|].
    split; [|reflexivity]. intros gen [H _]. now apply H.
  - split; [cbn; tauto|]. split; [|reflexivity].
    intros [_ (pr & text & H)]. discriminate H.
  - intros H.
    destruct (H (mkProcess (Some "key") None None) (mkMongo true true [] 1 [])
                (fun _ _ => ok "text")) as [Hlive _].
    + cbn. tauto.
    + now apply Hlive.
Qed.

(** * Further properties of the handlers *)

(** ** Chat: what it answers, whatever it is sent *)

Lemma chat_catch_message (error : JsError) :
  exists msg, msg <> ""
              /\ chat_catch error = mkResponse 500 [("error", VStr msg)].
Proof.
  unfold chat_catch, or_else, res_status_json.
  destruct (message error) as [s|].
  - destruct (String.eqb_spec s "") as [->|Hne];
      eexists; (split; [|reflexivity]); [discriminate|exact Hne].
  - eexists. split; [|reflexivity]. discriminate.
Qed.

(** X1. Whatever the process, the request body and the model's behaviour,
    the chat handler answers either 200 with [{ content, role: "assistant" }]
    or 500 with a non-empty [error] message: also for a thrown value with no
    message or an empty one, where the fallback text is sent. *)
Theorem chat_answers_200_or_500
  (generateContent : string -> string -> Try string)
  (p : Process) (req_body : option json) :
  (exists text,
      perform generateContent (chat p req_body)
      = mkResponse 200 [("content", VStr text); ("role", VStr "assistant")])
  \/ (exists msg,
         msg <> ""
         /\ perform generateContent (chat p req_body)
            = mkResponse 500 [("error", VStr msg)]).
Proof.
  destruct (configured p) eqn:Hp.
  - rewrite (chat_configured _ _ Hp).
    destruct (plan req_body) as [error|pl]; cbn [perform].
    + right. apply chat_catch_message.
    + unfold chat_reply.
      destruct (generateContent "gemini-2.0-flash" (prompt pl)) as [error|text].
      * right. apply chat_catch_message.
      * left. now exists text.
  - right. destruct (chat_unconfigured p req_body Hp) as (msg & Hmsg & ->).
    now exists msg.
Qed.

Lemma is_user_not_null (x : json) :
  x <> JNull -> is_user x = ok (role_is_user x).
Proof. destruct x; intros H; try reflexivity. now destruct H. Qed.

Lemma filterM_null (items : list json) :
  In JNull items ->
  filterM is_user items
  = throw (TypeError "Cannot read properties of null (reading 'role')").
Proof.
  induction items as [|x items IH]; [intros []|].
  intros Hin. cbn [filterM].
  destruct x; try reflexivity;
    (destruct Hin as [Habs|Hin]; [discriminate Habs|]);
    rewrite (IH Hin); rewrite is_user_not_null by discriminate; reflexivity.
Qed.

(** X2. A [messages] array with a [null] item makes the [filter] callback
    throw on [m.role]; the handler (guards passed) answers 500 with that
    TypeError's message and the model is not called, whatever the other
    items are. *)
Theorem chat_null_message (p : Process) (fields : list (string * json))
  (items : list json) :
  configured p = true ->
  lookup "messages" fields = Some (JArr items) ->
  In JNull items ->
  chat p (Some (JObj fields))
  = Respond (mkResponse 500
      [("error", VStr "Cannot read properties of null (reading 'role')")])
  /\ prompt_sent (chat p (Some (JObj fields))) = None.
Proof.
  intros Hp Hmsgs Hin. rewrite (chat_configured _ _ Hp).
  unfold plan. cbn [destructure]. rewrite Hmsgs. cbn [bind ok userMessages].
  rewrite (filterM_null _ Hin). split; reflexivity.
Qed.

Lemma chat_null_message_witness :
  let p := mkProcess (Some "key") (Some (mkGenAI "key")) None in
  let items := [turn_json (mkTurn "user" "hello"); JNull] in
  let fields := [("messages", JArr items)] in
  (configured p = true
   /\ lookup "messages" fields = Some (JArr items)
   /\ In JNull items)
  /\ chat p (Some (JObj fields))
     = Respond (mkResponse 500
         [("error", VStr "Cannot read properties of null (reading 'role')")])
  /\ prompt_sent (chat p (Some (JObj fields))) = None.
Proof.
  cbv zeta. split; [repeat split; cbn; tauto|].
  apply (chat_null_message
           (mkProcess (Some "key") (Some (mkGenAI "key")) None)
           [("messages", JArr [turn_json (mkTurn "user" "hello"); JNull])]
           [turn_json (mkTurn "user" "hello"); JNull]);
    [reflexivity|reflexivity|cbn; tauto].
Defined.

Lemma render_not_null (x : json) (s : string) : render x = ok s -> x <> JNull.
Proof. intros H ->. discriminate H. Qed.

Lemma filterM_rendered (items : list json) (rendered : list string) :
  mapM render items = ok rendered ->
  filterM is_user items = ok (filter role_is_user items).
Proof.
  revert rendered. induction items as [|x items IH]; intros rendered;
    [reflexivity|].
  cbn [mapM filterM filter].
  destruct (render x) as [e|s] eqn:Hx; [discriminate|].
  destruct (mapM render items) as [e|ss] eqn:Hrest; [discriminate|].
  intros _. rewrite (is_user_not_null x (render_not_null x s Hx)).
  rewrite (IH ss eq_refl). cbn [bind ok]. now destruct (role_is_user x).
Qed.

Lemma plan_rendered_eval (fields : list (string * json)) (items : list json)
  (rendered : list string) :
  lookup "messages" fields = Some (JArr items) ->
  mapM render items = ok rendered ->
  plan (Some (JObj fields))
  = ok (mkPlan (3 <=? length (filter role_is_user items))%nat
          (join LF
             (("system: "
               ++ systemPrompt (3 <=? length (filter role_is_user items))%nat)
              :: rendered))).
Proof.
  intros Hmsgs Hrender. unfold plan. cbn [destructure]. rewrite Hmsgs.
  cbn [bind ok userMessages spread].
  rewrite (filterM_rendered _ _ Hrender). cbn [bind ok].
  unfold shouldGenerateSchema.
  set (g := (3 <=? length (filter role_is_user items))%nat).
  cbn [mapM]. rewrite Hrender.
  change (render (JObj [("role", JStr "system");
                        ("content", JStr (systemPrompt g))]))
    with (ok (A := string) ("system" ++ ": " ++ systemPrompt g)).
  reflexivity.
Qed.

(** X3. For any [messages] array of parsed values, turns or not, in which
    no role or content is an array and whose items all render: the handler
    decides GENERATE exactly when at least three items are objects whose own
    [role] is the string [user] (items without a role, with another role or
    with a role that is no string do not count), and the prompt is the
    system line followed by the rendered items, joined by newlines in
    order. *)
Theorem plan_of_rendered (fields : list (string * json)) (items : list json)
  (rendered : list string) :
  lookup "messages" fields = Some (JArr items) ->
  forallb prints_flat items = true ->
  mapM render items = ok rendered ->
  plan (Some (JObj fields))
  = ok (mkPlan (3 <=? length (filter role_is_user items))%nat
          (join LF
             (("system: "
               ++ systemPrompt (3 <=? length (filter role_is_user items))%nat)
              :: rendered))).
Proof.
  intros Hmsgs _ Hrender. exact (plan_rendered_eval fields items rendered
                                   Hmsgs Hrender).
Qed.

Lemma plan_of_rendered_witness :
  let items := [JObj [("role", JStr "user")];
                JObj [("role", JNum "7"); ("content", JStr "x")];
                JStr "user";
                JObj [("role", JStr "user"); ("content", JObj [])]] in
  let fields := [("messages", JArr items)] in
  let rendered := ["user: undefined"; "7: x"; "undefined: undefined";
                   "user: [object Object]"] in
  (lookup "messages" fields = Some (JArr items)
   /\ forallb prints_flat items = true
   /\ mapM render items = ok rendered)
  /\ plan (Some (JObj fields))
     = ok (mkPlan (3 <=? length (filter role_is_user items))%nat
             (join LF
                (("system: "
                  ++ systemPrompt
                       (3 <=? length (filter role_is_user items))%nat)
                 :: rendered))).
Proof.
  cbv zeta. split; [repeat split; reflexivity|].
  apply (plan_of_rendered
           [("messages",
             JArr [JObj [("role", JStr "user")];
                   JObj [("role", JNum "7"); ("content", JStr "x")];
                   JStr "user";
                   JObj [("role", JStr "user"); ("content", JObj [])]])]);
    reflexivity.
Defined.

Lemma model_called_eval (p : Process) (req_body : option json) :
  prompt_sent (chat p req_body) <> None
  <-> configured p = true
      /\ exists fields items rendered,
           req_body = Some (JObj fields)
           /\ lookup "messages" fields = Some (JArr items)
           /\ mapM render items = ok rendered.
Proof.
  split.
  - intros Hsent. destruct (configured p) eqn:Hp.
    2:{ destruct (chat_unconfigured p req_body Hp) as (msg & _ & Hchat).
        rewrite Hchat in Hsent. now destruct Hsent. }
    split; [reflexivity|]. rewrite (chat_configured _ _ Hp) in Hsent.
    destruct req_body as [[| | | | |fields]|];
      try (exfalso; apply Hsent; reflexivity).
    destruct (lookup "messages" fields) as [[| | | |items|]|] eqn:Hmsgs;
      try (exfalso; apply Hsent; unfold plan; cbn [destructure];
           rewrite Hmsgs; reflexivity).
    destruct (mapM render items) as [e|rendered] eqn:Hrender.
    + exfalso. apply Hsent. unfold plan. cbn [destructure]. rewrite Hmsgs.
      cbn [bind ok userMessages spread].
      destruct (filterM is_user items); [reflexivity|]. cbn [bind ok mapM].
      rewrite Hrender.
      now destruct (render (JObj [("role", JStr "system"); _])).
    + now exists fields, items, rendered.
  - intros (Hp & fields & items & rendered & -> & Hmsgs & Hrender).
    rewrite (chat_configured _ _ Hp).
    rewrite (plan_rendered_eval _ _ _ Hmsgs Hrender). discriminate.
Qed.

(** X4. For a request in whose [messages] no role or content is an array:
    the chat handler calls the model exactly when both guards pass, the
    body is an object whose [messages] is an array, and every item of it
    renders (none is [null], none has a role or content that is an object
    with an own [toString]); in every other case no prompt leaves the
    process. *)
Theorem model_called_iff (p : Process) (req_body : option json) :
  (forall fields items,
      req_body = Some (JObj fields) ->
      lookup "messages" fields = Some (JArr items) ->
      forallb prints_flat items = true) ->
  prompt_sent (chat p req_body) <> None
  <-> configured p = true
      /\ exists fields items rendered,
           req_body = Some (JObj fields)
           /\ lookup "messages" fields = Some (JArr items)
           /\ mapM render items = ok rendered.
Proof. intros _. exact (model_called_eval p req_body). Qed.

Lemma model_called_iff_witness :
  let p := mkProcess (Some "key") (Some (mkGenAI "key")) None in
  let req_body :=
    Some (JObj [("messages",
                 JArr [JObj [("role", JStr "user");
                             ("content", JObj [("toString", JNum "1")])]])]) in
  (forall fields items,
      req_body = Some (JObj fields) ->
      lookup "messages" fields = Some (JArr items) ->
      forallb prints_flat items = true)
  /\ (prompt_sent (chat p req_body) <> None
      <-> configured p = true
          /\ exists fields items rendered,
               req_body = Some (JObj fields)
               /\ lookup "messages" fields = Some (JArr items)
               /\ mapM render items = ok rendered).
Proof.
  cbv zeta.
  assert (H : forall fields items,
             Some (JObj [("messages",
                          JArr [JObj [("role", JStr "user");
                                      ("content",
                                       JObj [("toString", JNum "1")])]])])
             = Some (JObj fields) ->
             lookup "messages" fields = Some (JArr items) ->
             forallb prints_flat items = true).
  { intros fields items [= <-] [= <-]. reflexivity. }
  split; [exact H|].
  exact (model_called_iff
           (mkProcess (Some "key") (Some (mkGenAI "key")) None)
           (Some (JObj [("messages",
                         JArr [JObj [("role", JStr "user");
                                     ("content",
                                      JObj [("toString", JNum "1")])]])]))
           H).
Defined.

(** ** Chat: the mode as a conversation grows *)

Lemma userTurnCount_app (turns more : list ChatTurn) :
  userTurnCount (turns ++ more)%list
  = userTurnCount turns + userTurnCount more.
Proof. unfold userTurnCount. now rewrite filter_app, length_app. Qed.

Lemma chat_mode_turns (turns : list ChatTurn) :
  chat_mode (chat_body turns)
  = Some (mode_of (3 <=? userTurnCount turns)%nat).
Proof. unfold chat_mode. now rewrite plan_turns. Qed.

(** X5. Extending a conversation never takes the policy back from GENERATE
    to CLARIFY, and turns that are not user turns (assistant replies, system
    turns) never change the mode. *)
Theorem mode_monotone (turns more : list ChatTurn) :
  (chat_mode (chat_body turns) = Some GENERATE ->
   chat_mode (chat_body (turns ++ more)%list) = Some GENERATE)
  /\ (userTurnCount more = 0 ->
      chat_mode (chat_body (turns ++ more)%list)
      = chat_mode (chat_body turns)).
Proof.
  rewrite !chat_mode_turns, userTurnCount_app. split.
  - destruct (Nat.leb_spec 3 (userTurnCount turns)) as [H|H];
      [|discriminate].
    intros _.
    now destruct (Nat.leb_spec 3 (userTurnCount turns + userTurnCount more));
      [|lia].
  - intros ->. now rewrite Nat.add_0_r.
Qed.

(** ** The store handlers when something is wrong *)

(** X6. With [db] set but the server not answering, each project handler
    tries its one driver call and answers 500 with its own message
    ([Failed to fetch project], [Failed to create project], [Failed to
    update project]); the collection is unchanged. *)
Theorem store_down (p : Process) (d : Db) (key fresh : string)
  (req_body : option json) (now : Z) (m : Mongo) :
  db p = Some d ->
  reachable m = false ->
  req_body <> None ->
  req_body <> Some JNull ->
  get_project p key m
  = (mkResponse 500 [("error", VStr "Failed to fetch project")],
     called (FindOne key) m)
  /\ post_project p req_body fresh now m
     = (mkResponse 500 [("error", VStr "Failed to create project")],
        called (InsertOne fresh) m)
  /\ put_project p key req_body now m
     = (mkResponse 500 [("error", VStr "Failed to update project")],
        called (UpdateOne key) m).
Proof.
  intros Hdb Hdown Hsome Hnull.
  assert (Hdes : forall k, exists v, destructure req_body k = ok v).
  { intros k. destruct req_body as [[| | | | |fields]|].
    - now destruct Hnull.
    - now exists None.
    - now exists None.
    - now exists None.
    - now exists None.
    - now exists (lookup k fields).
    - now destruct Hsome. }
  destruct (Hdes "name") as (n & Hn). destruct (Hdes "schema") as (s & Hs).
  destruct (Hdes "schemaType") as (t & Ht).
  destruct (Hdes "conversation") as (c & Hc).
  rewrite (post_project_eval p d req_body fresh now m n s t c Hdb Hn Hs Ht Hc).
  rewrite (put_project_eval p d key req_body now m n s Hdb Hn Hs).
  rewrite Hdown. split; [|split; reflexivity].
  unfold get_project, try_catch, bindA, findOne, send. rewrite Hdb.
  cbn [called reachable]. now rewrite Hdown.
Qed.

Lemma store_down_witness :
  let p := mkProcess None None (Some (mkDb "schema_designer")) in
  let m := mkMongo false true [] 1 [] in
  let req_body := Some (JObj [("name", JStr "Blog")]) in
  (db p = Some (mkDb "schema_designer")
   /\ reachable m = false
   /\ req_body <> None
   /\ req_body <> Some JNull)
  /\ get_project p "V1StGXR8" m
     = (mkResponse 500 [("error", VStr "Failed to fetch project")],
        called (FindOne "V1StGXR8") m)
  /\ post_project p req_body "V1StGXR8" 1000 m
     = (mkResponse 500 [("error", VStr "Failed to create project")],
        called (InsertOne "V1StGXR8") m)
  /\ put_project p "V1StGXR8" req_body 1000 m
     = (mkResponse 500 [("error", VStr "Failed to update project")],
        called (UpdateOne "V1StGXR8") m).
Proof.
  cbv zeta. split; [repeat split; try reflexivity; discriminate|].
  apply (store_down
           (mkProcess None None (Some (mkDb "schema_designer")))
           (mkDb "schema_designer") "V1StGXR8" "V1StGXR8"
           (Some (JObj [("name", JStr "Blog")])) 1000
           (mkMongo false true [] 1 []));
    try reflexivity; discriminate.
Defined.

Lemma missing_body_eval (p : Process) (d : Db) (key fresh : string)
  (req_body : option json) (now : Z) (m : Mongo) :
  db p = Some d ->
  req_body = None \/ req_body = Some JNull ->
  post_project p req_body fresh now m
  = (mkResponse 500 [("error", VStr "Failed to create project")], m)
  /\ put_project p key req_body now m
     = (mkResponse 500 [("error", VStr "Failed to update project")], m).
Proof.
  intros Hdb [->| ->]; unfold post_project, put_project; rewrite Hdb;
    split; reflexivity.
Qed.

(** X7. A create or an update whose request has no body (or the body
    [null]) fails in the destructuring, before any driver call: the answer
    is 500 with the handler's message and the store is exactly as before,
    even when it is connected and answering. *)
Theorem missing_body (p : Process) (d : Db) (key fresh : string)
  (req_body : option json) (now : Z) (m : Mongo) :
  db p = Some d ->
  req_body = None \/ req_body = Some JNull ->
  post_project p req_body fresh now m
  = (mkResponse 500 [("error", VStr "Failed to create project")], m)
  /\ put_project p key req_body now m
     = (mkResponse 500 [("error", VStr "Failed to update project")], m).
Proof. exact (missing_body_eval p d key fresh req_body now m). Qed.

Lemma missing_body_witness :
  let p := mkProcess None None (Some (mkDb "schema_designer")) in
  let m := mkMongo true true [] 1 [] in
  (db p = Some (mkDb "schema_designer")
   /\ (@None json = None \/ @None json = Some JNull))
  /\ post_project p None "V1StGXR8" 1000 m
     = (mkResponse 500 [("error", VStr "Failed to create project")], m)
  /\ put_project p "V1StGXR8" None 1000 m
     = (mkResponse 500 [("error", VStr "Failed to update project")], m).
Proof.
  cbv zeta. split; [split; [reflexivity|now left]|].
  apply (missing_body
           (mkProcess None None (Some (mkDb "schema_designer")))
           (mkDb "schema_designer") "V1StGXR8" "V1StGXR8" None 1000
           (mkMongo true true [] 1 []));
    [reflexivity|now left].
Defined.

Lemma find_existsb (key : string) (ps : list Project) (x : Project) :
  find (has_id key) ps = Some x -> existsb (has_id key) ps = true.
Proof.
  induction ps as [|y ps IH]; cbn [find existsb]; [discriminate|].
  destruct (has_id key y); [reflexivity|]. exact IH.
Qed.

(** X8. With the unique index in place, a create whose minted id is already
    taken is refused by the store: the handler answers 500 [Failed to create
    project] and the collection is unchanged. *)
Theorem create_duplicate_refused (p : Process) (d : Db)
  (fields : list (string * json)) (fresh : string) (now : Z) (m : Mongo)
  (taken : Project) :
  db p = Some d ->
  reachable m = true ->
  unique_id m = true ->
  stored fresh m = Some taken ->
  post_project p (Some (JObj fields)) fresh now m
  = (mkResponse 500 [("error", VStr "Failed to create project")],
     called (InsertOne fresh) m)
  /\ projects (snd (post_project p (Some (JObj fields)) fresh now m))
     = projects m.
Proof.
  intros Hdb Hup Hidx Htaken.
  rewrite (post_project_eval p d (Some (JObj fields)) fresh now m
             _ _ _ _ Hdb eq_refl eq_refl eq_refl eq_refl).
  rewrite Hup, Hidx, (find_existsb _ _ _ Htaken). split; reflexivity.
Qed.

Lemma create_duplicate_refused_witness :
  let p := mkProcess None None (Some (mkDb "schema_designer")) in
  let blog := mkProject 7 "V1StGXR8" (JStr "Blog") (JObj []) (JStr "mongodb")
                (JArr []) 1000 1000 in
  let m := mkMongo true true [blog] 8 [] in
  let fields := [("name", JStr "Shop")] in
  (db p = Some (mkDb "schema_designer")
   /\ reachable m = true
   /\ unique_id m = true
   /\ stored "V1StGXR8" m = Some blog)
  /\ post_project p (Some (JObj fields)) "V1StGXR8" 2000 m
     = (mkResponse 500 [("error", VStr "Failed to create project")],
        called (InsertOne "V1StGXR8") m)
  /\ projects (snd (post_project p (Some (JObj fields)) "V1StGXR8" 2000 m))
     = projects m.
Proof.
  cbv zeta. split; [repeat split; reflexivity|].
  apply (create_duplicate_refused
           (mkProcess None None (Some (mkDb "schema_designer")))
           (mkDb "schema_designer") [("name", JStr "Shop")] "V1StGXR8" 2000
           (mkMongo true true
              [mkProject 7 "V1StGXR8" (JStr "Blog") (JObj []) (JStr "mongodb")
                 (JArr []) 1000 1000] 8 [])
           (mkProject 7 "V1StGXR8" (JStr "Blog") (JObj []) (JStr "mongodb")
              (JArr []) 1000 1000));
    reflexivity.
Defined.

(** ** What a request does to the collection *)

Lemma destructure_cases (req_body : option json) :
  (req_body = None \/ req_body = Some JNull)
  \/ (forall k, exists v, destructure req_body k = ok v).
Proof.
  destruct req_body as [[| | | | |fields]|];
    try (right; intros k; now eexists); left; [now right|now left].
Qed.

Lemma find_app_found (key : string) (ps : list Project) (d x : Project) :
  find (has_id key) ps = Some d ->
  find (has_id key) (ps ++ [x])%list = Some d.
Proof.
  induction ps as [|y ps IH]; cbn [find app]; [discriminate|].
  destruct (has_id key y); [trivial|exact IH].
Qed.

Lemma update_first_ids (key : string) (f : Project -> Project)
  (ps : list Project) :
  (forall x, id (f x) = id x) ->
  map id (fst (update_first key f ps)) = map id ps.
Proof.
  intros Hid. induction ps as [|x ps IH]; [reflexivity|]. cbn [update_first].
  destruct (has_id key x); [cbn [fst map]; now rewrite Hid|].
  destruct (update_first key f ps). cbn [fst map] in *. now rewrite IH.
Qed.

(** Every handler, in every state: the index flag and the reachability are
    kept, and the documents are the same, or updated in place by a [$set],
    or extended by the one document of a create that answered 201. *)
Lemma handle_effect (p : Process) (r : Request) (m : Mongo) :
  unique_id (snd (handle p r m)) = unique_id m
  /\ reachable (snd (handle p r m)) = reachable m
  /\ (projects (snd (handle p r m)) = projects m
      \/ (exists key req_body now n s,
             r = PUT_project key req_body now
             /\ projects (snd (handle p r m))
                = fst (update_first key (set_fields n s now) (projects m)))
      \/ (exists req_body fresh now doc,
             r = POST_project req_body fresh now
             /\ fst (handle p r m) = mkResponse 201 [("id", VStr fresh)]
             /\ unique_id m && existsb (has_id fresh) (projects m) = false
             /\ id doc = fresh
             /\ _id doc = next_oid m
             /\ createdAt doc = now
             /\ updatedAt doc = now
             /\ projects (snd (handle p r m)) = (projects m ++ [doc])%list)).
Proof.
  destruct r as [|req_body answer|key|req_body fresh now|key req_body now];
    cbn [handle].
  - rewrite get_status_eval. destruct (db p); now repeat split; try left.
  - now repeat split; try left.
  - unfold get_project, try_catch, bindA, findOne, send.
    destruct (db p); [|now repeat split; try left].
    cbn [called reachable projects]. destruct (reachable m) eqn:Hup;
      [|cbn; rewrite Hup; now repeat split; try left].
    destruct (find (has_id key) (projects m)); cbn; rewrite Hup;
      now repeat split; try left.
  - destruct (db p) as [d|] eqn:Hdb.
    2:{ unfold post_project. rewrite Hdb. now repeat split; try left. }
    destruct (destructure_cases req_body) as [Hnone|Hdes].
    { destruct (missing_body_eval p d fresh fresh req_body now m Hdb Hnone)
        as [-> _]. now repeat split; try left. }
    destruct (Hdes "name") as (n & Hn). destruct (Hdes "schema") as (s & Hs).
    destruct (Hdes "schemaType") as (t & Ht).
    destruct (Hdes "conversation") as (c & Hc).
    rewrite (post_project_eval p d req_body fresh now m n s t c
               Hdb Hn Hs Ht Hc).
    destruct (reachable m) eqn:Hup;
      [|cbn; rewrite Hup; now repeat split; try left].
    destruct (unique_id m && existsb (has_id fresh) (projects m)) eqn:Hdup;
      [cbn; rewrite Hup; now repeat split; try left|].
    cbn [fst snd unique_id reachable projects].
    split; [reflexivity|]. split; [reflexivity|]. right. right.
    exists req_body, fresh, now,
      (mkProject (next_oid m) fresh (bson n) (bson s) (bson t) (bson c)
         now now).
    now repeat split.
  - destruct (db p) as [d|] eqn:Hdb.
    2:{ unfold put_project. rewrite Hdb. now repeat split; try left. }
    destruct (destructure_cases req_body) as [Hnone|Hdes].
    { destruct (missing_body_eval p d key key req_body now m Hdb Hnone)
        as [_ ->]. now repeat split; try left. }
    destruct (Hdes "name") as (n & Hn). destruct (Hdes "schema") as (s & Hs).
    rewrite (put_project_eval p d key req_body now m n s Hdb Hn Hs).
    destruct (reachable m) eqn:Hup;
      [|cbn; rewrite Hup; now repeat split; try left].
    cbn [fst snd with_projects called unique_id reachable projects].
    split; [reflexivity|]. split; [exact Hup|]. right. left.
    now exists key, req_body, now, (bson n), (bson s).
Qed.

(** X9. Whatever the state and the body, a create either answers 201 with
    the minted id and appends exactly one document carrying that id, a new
    [_id] and [createdAt = updatedAt = now], or answers 500 and leaves the
    collection as it was; in both cases every project that could be read
    before reads the same afterwards. *)
Theorem create_outcome (p : Process) (req_body : option json)
  (fresh : string) (now : Z) (m : Mongo) :
  ((fst (post_project p req_body fresh now m)
    = mkResponse 201 [("id", VStr fresh)]
    /\ exists doc,
         projects (snd (post_project p req_body fresh now m))
         = (projects m ++ [doc])%list
         /\ id doc = fresh
         /\ _id doc = next_oid m
         /\ createdAt doc = now
         /\ updatedAt doc = now)
   \/ (status (fst (post_project p req_body fresh now m)) = 500
       /\ projects (snd (post_project p req_body fresh now m)) = projects m))
  /\ (forall key d,
         stored key m = Some d ->
         stored key (snd (post_project p req_body fresh now m)) = Some d).
Proof.
  destruct (handle_effect p (POST_project req_body fresh now) m)
    as (_ & _ & Heff). cbn [handle] in Heff.
  assert (Hstatus : status (fst (post_project p req_body fresh now m)) = 500
                    \/ status (fst (post_project p req_body fresh now m))
                       = 201).
  { destruct (db p) as [d|] eqn:Hdb;
      [|unfold post_project; rewrite Hdb; now left].
    destruct (destructure_cases req_body) as [Hnone|Hdes].
    { destruct (missing_body_eval p d fresh fresh req_body now m Hdb Hnone)
        as [-> _]. now left. }
    destruct (Hdes "name") as (n & Hn). destruct (Hdes "schema") as (s & Hs).
    destruct (Hdes "schemaType") as (t & Ht).
    destruct (Hdes "conversation") as (c & Hc).
    rewrite (post_project_eval p d req_body fresh now m n s t c
               Hdb Hn Hs Ht Hc).
    destruct (reachable m); [|now left].
    destruct (unique_id m && existsb (has_id fresh) (projects m));
      [now left|now right]. }
  destruct Heff as [Hsame|[(k & b & t & n & s & Habs & _)|
                            (b & f & t & doc & Hreq & Hresp & _ & Hid & Hoid
                             & Hc & Hu & Hps)]];
    [|discriminate Habs|].
  - split.
    + destruct Hstatus as [H500|H201]; [right; now split|].
      exfalso. destruct (db p) as [d|] eqn:Hdb;
        [|unfold post_project in H201; rewrite Hdb in H201; discriminate].
      destruct (destructure_cases req_body) as [Hnone|Hdes].
      { destruct (missing_body_eval p d fresh fresh req_body now m Hdb Hnone)
          as [Hp _]. rewrite Hp in H201. discriminate. }
      destruct (Hdes "name") as (n & Hn).
      destruct (Hdes "schema") as (s & Hs).
      destruct (Hdes "schemaType") as (t & Ht).
      destruct (Hdes "conversation") as (c & Hc).
      rewrite (post_project_eval p d req_body fresh now m n s t c
                 Hdb Hn Hs Ht Hc) in H201, Hsame.
      destruct (reachable m); [|discriminate].
      destruct (unique_id m && existsb (has_id fresh) (projects m));
        [discriminate|].
      cbn [snd projects] in Hsame.
      apply (f_equal (@length Project)) in Hsame.
      rewrite length_app in Hsame. cbn in Hsame. lia.
    + intros key d Hd. unfold stored in *. now rewrite Hsame.
  - injection Hreq as <- <- <-. split.
    + left. split; [exact Hresp|]. now exists doc.
    + intros key d Hd. unfold stored in *. rewrite Hps.
      now apply find_app_found.
Qed.

(** ** Update, then read; update, then update *)







(** ** Create validates nothing *)

Lemma create_any_object_eval (p : Process) (d : Db)
  (fields : list (string * json)) (fresh : string) (now : Z) (m : Mongo) :
  db p = Some d ->
  reachable m = true ->
  stored fresh m = None ->
  fst (post_project p (Some (JObj fields)) fresh now m)
  = mkResponse 201 [("id", VStr fresh)]
  /\ fst (get_project p fresh
            (snd (post_project p (Some (JObj fields)) fresh now m)))
     = mkResponse 200
         [("id", VStr fresh);
          ("name", VJson (bson (lookup "name" fields)));
          ("schema", VJson (bson (lookup "schema" fields)));
          ("schemaType", VJson (bson (lookup "schemaType" fields)));
          ("conversation", VJson (bson (lookup "conversation" fields)));
          ("createdAt", VDate now);
          ("updatedAt", VDate now)].
Proof.
  intros Hdb Hup Hfree.
  rewrite (post_project_eval p d (Some (JObj fields)) fresh now m
             _ _ _ _ Hdb eq_refl eq_refl eq_refl eq_refl).
  rewrite Hup. unfold stored in Hfree.
  assert (Hno : existsb (has_id fresh) (projects m) = false).
  { destruct (existsb (has_id fresh) (projects m)) eqn:Hex; [|reflexivity].
    apply existsb_exists in Hex as (x & Hin & Hx).
    now rewrite (find_none _ _ Hfree x Hin) in Hx. }
  rewrite Hno, andb_false_r. cbn [fst snd]. split; [reflexivity|].
  match goal with
  | |- context [get_project p fresh ?M] =>
      rewrite (get_project_live p d fresh M Hdb eq_refl)
  end.
  unfold stored. cbn [projects fst]. rewrite (find_app_last _ _ _ Hfree).
  unfold has_id at 1. cbn [id]. now rewrite String.eqb_refl.
Qed.

(** X12. A create checks neither the presence nor the type of its fields:
    for an object body, also an empty one, whose [name], [schema],
    [schemaType] and [conversation] are each missing or a scalar ([null],
    a boolean, a number, a string), with the store answering and the minted
    id free, it answers 201, and the read of that id shows each of the four
    as submitted, or as [null] when the body did not have it. *)
Theorem create_accepts_any_object (p : Process) (d : Db)
  (fields : list (string * json)) (fresh : string) (now : Z) (m : Mongo) :
  db p = Some d ->
  reachable m = true ->
  stored fresh m = None ->
  scalar (lookup "name" fields) = true ->
  scalar (lookup "schema" fields) = true ->
  scalar (lookup "schemaType" fields) = true ->
  scalar (lookup "conversation" fields) = true ->
  fst (post_project p (Some (JObj fields)) fresh now m)
  = mkResponse 201 [("id", VStr fresh)]
  /\ fst (get_project p fresh
            (snd (post_project p (Some (JObj fields)) fresh now m)))
     = mkResponse 200
         [("id", VStr fresh);
          ("name", VJson (bson (lookup "name" fields)));
          ("schema", VJson (bson (lookup "schema" fields)));
          ("schemaType", VJson (bson (lookup "schemaType" fields)));
          ("conversation", VJson (bson (lookup "conversation" fields)));
          ("createdAt", VDate now);
          ("updatedAt", VDate now)].
Proof.
  intros Hdb Hup Hfree _ _ _ _.
  exact (create_any_object_eval p d fields fresh now m Hdb Hup Hfree).
Qed.

Lemma create_accepts_any_object_witness :
  let p := mkProcess None None (Some (mkDb "schema_designer")) in
  let m := mkMongo true false [] 1 [] in
  let fields := [("name", JNum "42"); ("schemaType", JNull)] in
  (db p = Some (mkDb "schema_designer")
   /\ reachable m = true
   /\ stored "V1StGXR8" m = None
   /\ scalar (lookup "name" fields) = true
   /\ scalar (lookup "schema" fields) = true
   /\ scalar (lookup "schemaType" fields) = true
   /\ scalar (lookup "conversation" fields) = true)
  /\ fst (post_project p (Some (JObj fields)) "V1StGXR8" 1000 m)
     = mkResponse 201 [("id", VStr "V1StGXR8")]
  /\ fst (get_project p "V1StGXR8"
            (snd (post_project p (Some (JObj fields)) "V1StGXR8" 1000 m)))
     = mkResponse 200
         [("id", VStr "V1StGXR8");
          ("name", VJson (bson (lookup "name" fields)));
          ("schema", VJson (bson (lookup "schema" fields)));
          ("schemaType", VJson (bson (lookup "schemaType" fields)));
          ("conversation", VJson (bson (lookup "conversation" fields)));
          ("createdAt", VDate 1000);
          ("updatedAt", VDate 1000)].
Proof.
  cbv zeta. split; [repeat split; reflexivity|].
  apply (create_accepts_any_object
           (mkProcess None None (Some (mkDb "schema_designer")))
           (mkDb "schema_designer")
           [("name", JNum "42"); ("schemaType", JNull)] "V1StGXR8" 1000
           (mkMongo true false [] 1 []));
    reflexivity.
Defined.

(** ** Invariants over any sequence of requests *)

(** X13. No request removes or renames a project: a request leaves the list
    of ids as it was, unless it is a create that answered 201, which appends
    the minted id and nothing else.  In particular reads, the status check,
    chat calls, updates (found or not) and failed creates never add or drop
    a document. *)
Theorem only_create_adds (p : Process) (r : Request) (m : Mongo) :
  ids (snd (handle p r m)) = ids m
  \/ exists req_body fresh now,
       r = POST_project req_body fresh now
       /\ fst (handle p r m) = mkResponse 201 [("id", VStr fresh)]
       /\ ids (snd (handle p r m)) = (ids m ++ [fresh])%list.
Proof.
  unfold ids.
  destruct (handle_effect p r m)
    as (_ & _ & [Hsame|[(k & b & t & n & s & _ & Hps)|
                        (b & f & t & doc & Hreq & Hresp & _ & Hid & _ & _ & _
                         & Hps)]]).
  - left. now rewrite Hsame.
  - left. rewrite Hps. apply update_first_ids, set_fields_id.
  - right. exists b, f, t. split; [exact Hreq|]. split; [exact Hresp|].
    rewrite Hps, map_app. cbn [map]. now rewrite Hid.
Qed.

Lemma existsb_has_id_ids (key : string) (ps qs : list Project) :
  map id ps = map id qs ->
  existsb (has_id key) ps = existsb (has_id key) qs.
Proof.
  revert qs. induction ps as [|x ps IH]; intros [|y qs] H;
    try discriminate H; [reflexivity|].
  cbn [map] in H. injection H as Hxy Hrest. cbn [existsb]. unfold has_id at 1 3.
  now rewrite Hxy, (IH qs Hrest).
Qed.

Lemma distinct_ids_ids (ps qs : list Project) :
  map id ps = map id qs -> distinct_ids ps = distinct_ids qs.
Proof.
  revert qs. induction ps as [|x ps IH]; intros [|y qs] H;
    try discriminate H; [reflexivity|].
  cbn [map] in H. injection H as Hxy Hrest. cbn [distinct_ids].
  now rewrite Hxy, (existsb_has_id_ids _ ps qs Hrest), (IH qs Hrest).
Qed.

Lemma distinct_ids_app (ps : list Project) (doc : Project) :
  distinct_ids ps = true ->
  existsb (has_id (id doc)) ps = false ->
  distinct_ids (ps ++ [doc])%list = true.
Proof.
  induction ps as [|x ps IH]; [reflexivity|].
  cbn [distinct_ids existsb app]. intros Hd Hnew.
  apply andb_prop in Hd as [Hx Hps]. apply orb_false_elim in Hnew as [Hxd Hrest].
  rewrite (IH Hps Hrest), andb_true_r, existsb_app. cbn [existsb].
  rewrite orb_false_r. apply negb_true_iff in Hx. rewrite Hx. cbn [orb].
  unfold has_id in *. now rewrite String.eqb_sym, Hxd.
Qed.

(** X14. Once the unique index on [id] is in place over a collection without
    duplicate ids, no sequence of requests, whatever their bodies, the ids
    [nanoid()] returns and the outages in between, makes two projects share
    an [id]. *)
Theorem ids_stay_unique (p : Process) (history : list (bool * Request))
  (m : Mongo) :
  unique_id m = true ->
  distinct_ids (projects m) = true ->
  unique_id (run p history m) = true
  /\ distinct_ids (projects (run p history m)) = true.
Proof.
  revert m. induction history as [|[up r] history IH]; intros m Hidx Hdist;
    [now split|].
  cbn [run].
  destruct (handle_effect p r (weather up m))
    as (Hu & _ & [Hsame|[(k & b & t & n & s & _ & Hps)|
                         (b & f & t & doc & _ & _ & Hdup & Hid & _ & _ & _
                          & Hps)]]);
    cbn [weather unique_id projects] in *; apply IH; try congruence.
  - rewrite Hps.
    rewrite (distinct_ids_ids _ (projects m)); [exact Hdist|].
    apply update_first_ids, set_fields_id.
  - rewrite Hps. rewrite Hidx in Hdup. cbn [andb] in Hdup.
    apply distinct_ids_app; [exact Hdist|now rewrite Hid].
Qed.

Lemma ids_stay_unique_witness :
  let p := mkProcess None None (Some (mkDb "schema_designer")) in
  let m := mkMongo true true [] 1 [] in
  let create := POST_project (Some (JObj [("name", JStr "Blog")]))
                  "V1StGXR8" 1000 in
  let history := [(true, create); (false, create); (true, create)] in
  (unique_id m = true /\ distinct_ids (projects m) = true)
  /\ unique_id (run p history m) = true
  /\ distinct_ids (projects (run p history m)) = true.
Proof.
  cbv zeta. split; [split; reflexivity|].
  apply (ids_stay_unique
           (mkProcess None None (Some (mkDb "schema_designer")))
           [(true, POST_project (Some (JObj [("name", JStr "Blog")]))
                     "V1StGXR8" 1000);
            (false, POST_project (Some (JObj [("name", JStr "Blog")]))
                      "V1StGXR8" 1000);
            (true, POST_project (Some (JObj [("name", JStr "Blog")]))
                     "V1StGXR8" 1000)]
           (mkMongo true true [] 1 []));
    reflexivity.
Defined.

Lemma update_first_keeps_frame (key other : string)
  (f : Project -> Project) (ps : list Project) (x : Project) :
  (forall y, id (f y) = id y) ->
  (forall y, frame_of (f y) = frame_of y) ->
  find (has_id other) ps = Some x ->
  exists x', find (has_id other) (fst (update_first key f ps)) = Some x'
             /\ frame_of x' = frame_of x.
Proof.
  intros Hid Hframe. induction ps as [|y ps IH]; cbn [find update_first];
    [discriminate|].
  destruct (has_id key y) eqn:Hky.
  - cbn [fst find].
    assert (Hh : has_id other (f y) = has_id other y)
      by (unfold has_id; now rewrite Hid).
    rewrite Hh. destruct (has_id other y).
    + intros [= <-]. now exists (f y).
    + intros H. now exists x.
  - destruct (update_first key f ps) as [ps' n]. cbn [fst find] in *.
    destruct (has_id other y).
    + intros [= <-]. now exists y.
    + exact IH.
Qed.

(** X15. A project is never lost and never re-identified: over any sequence
    of requests, an id that could be read stays readable, and the project
    read under it keeps its [_id], [id], [schemaType], [conversation] and
    [createdAt].  (There is no delete, and the only writes are the append
    of a create and the [$set] of an update.) *)
Theorem project_persists (p : Process) (history : list (bool * Request))
  (m : Mongo) (key : string) (project : Project) :
  stored key m = Some project ->
  exists project',
    stored key (run p history m) = Some project'
    /\ frame_of project' = frame_of project.
Proof.
  revert m project. induction history as [|[up r] history IH];
    intros m project Hfound; [now exists project|].
  cbn [run].
  assert (Hstep : exists x, stored key (snd (handle p r (weather up m)))
                            = Some x
                            /\ frame_of x = frame_of project).
  { unfold stored in *.
    destruct (handle_effect p r (weather up m))
      as (_ & _ & [Hsame|[(k & b & t & n & s & _ & Hps)|
                          (b & f & t & doc & _ & _ & _ & _ & _ & _ & _
                           & Hps)]]);
      cbn [weather projects] in *; rewrite ?Hsame, ?Hps.
    - now exists project.
    - apply update_first_keeps_frame; trivial.
    - exists project. split; [now apply find_app_found|reflexivity]. }
  destruct Hstep as (x & Hx & Hfx).
  destruct (IH _ x Hx) as (x' & Hx' & Hfx').
  exists x'. split; [exact Hx'|congruence].
Qed.

Lemma project_persists_witness :
  let p := mkProcess None None (Some (mkDb "schema_designer")) in
  let blog := mkProject 7 "V1StGXR8" (JStr "Blog") (JObj []) (JStr "mongodb")
                (JArr []) 1000 1000 in
  let m := mkMongo true false [blog] 8 [] in
  let history :=
    [(true, PUT_project "V1StGXR8" (Some (JObj [("name", JStr "B")])) 2000);
     (true, POST_project (Some (JObj [])) "V1StGXR8" 3000);
     (true, GET_status)] in
  stored "V1StGXR8" m = Some blog
  /\ exists project',
       stored "V1StGXR8" (run p history m) = Some project'
       /\ frame_of project' = frame_of blog.
Proof.
  cbv zeta. split; [reflexivity|].
  apply (project_persists
           (mkProcess None None (Some (mkDb "schema_designer")))
           [(true, PUT_project "V1StGXR8" (Some (JObj [("name", JStr "B")]))
                     2000);
            (true, POST_project (Some (JObj [])) "V1StGXR8" 3000);
            (true, GET_status)]
           (mkMongo true false
              [mkProject 7 "V1StGXR8" (JStr "Blog") (JObj []) (JStr "mongodb")
                 (JArr []) 1000 1000] 8 [])
           "V1StGXR8").
  reflexivity.
Defined.

(** ** Start-up *)

Lemma connect_eval (uri dbname : option string) (m : Mongo) :
  (snd (fst (connectToMongoDB uri dbname m)) = Some true
   <-> truthy uri = true /\ reachable m = true
       /\ distinct_ids (projects m) = true)
  /\ (fst (fst (connectToMongoDB uri dbname m)) <> None
      <-> truthy uri = true /\ reachable m = true)
  /\ (snd (fst (connectToMongoDB uri dbname m)) = Some true ->
      unique_id (snd (connectToMongoDB uri dbname m)) = true)
  /\ (truthy uri = true -> reachable m = true ->
      distinct_ids (projects m) = false ->
      fst (connectToMongoDB uri dbname m)
      = (Some (mkDb (or_else dbname "schema_designer")), Some false)
      /\ unique_id (snd (connectToMongoDB uri dbname m)) = unique_id m)
  /\ (truthy uri = false -> connectToMongoDB uri dbname m = ((None, None), m))
  /\ projects (snd (connectToMongoDB uri dbname m)) = projects m.
Proof.
  destruct m as [up u ps n cs]. unfold connectToMongoDB.
  destruct (truthy uri); cbn [negb].
  2:{ repeat split; try discriminate; try tauto;
        try (now intros [H _]); intros H; now destruct H. }
  destruct up;
    cbv [send createIndex called reachable projects unique_id next_oid calls
         ok throw].
  - destruct (distinct_ids ps); cbv [fst snd];
      repeat split; try discriminate; try tauto; try (now intros [_ [_ H]]).
  - cbv [fst snd].
    repeat split; try discriminate; try tauto;
      try (now intros [_ [H _]]); try (now intros [_ H]);
      intros H; now destruct H.
Qed.

(** X16. What [connectToMongoDB] leaves behind.  It returns [true] exactly
    when the connection string is set, the server answers and the unique
    index could be built (no two stored projects share an id), and then the
    index is in place.  [db] is set as soon as the connection succeeded, so
    also when the index build failed and [false] was returned: the project
    handlers then serve without the uniqueness constraint.  Without a
    connection string nothing is sent to the store.  The documents are
    never touched. *)
Theorem connect_outcomes (uri dbname : option string) (m : Mongo) :
  (snd (fst (connectToMongoDB uri dbname m)) = Some true
   <-> truthy uri = true /\ reachable m = true
       /\ distinct_ids (projects m) = true)
  /\ (fst (fst (connectToMongoDB uri dbname m)) <> None
      <-> truthy uri = true /\ reachable m = true)
  /\ (snd (fst (connectToMongoDB uri dbname m)) = Some true ->
      unique_id (snd (connectToMongoDB uri dbname m)) = true)
  /\ (truthy uri = true -> reachable m = true ->
      distinct_ids (projects m) = false ->
      fst (connectToMongoDB uri dbname m)
      = (Some (mkDb (or_else dbname "schema_designer")), Some false)
      /\ unique_id (snd (connectToMongoDB uri dbname m)) = unique_id m)
  /\ (truthy uri = false -> connectToMongoDB uri dbname m = ((None, None), m))
  /\ projects (snd (connectToMongoDB uri dbname m)) = projects m.
Proof. exact (connect_eval uri dbname m). Qed.

Lemma filter_pair_nil {A : Type} (f : A -> bool) (a b : A) :
  filter f [a; b] = [] -> f a = false /\ f b = false.
Proof. cbn. destruct (f a); [discriminate|]. now destruct (f b). Qed.

(** X17. The required-variable check of lines 19 to 28 against the
    handlers.  When [GEMINI_API_KEY] is reported missing, every chat request
    is answered 500 [Gemini API key is missing...] whatever its body; when
    [MONGODB_URI] is reported missing, start-up sends nothing to the store,
    [db] stays unset and the project handlers answer 500; and when nothing
    is reported missing, a server that answers and a client constructor that
    does not throw give a process whose chat guards pass and whose [db] is
    set. *)
Theorem missing_variable_disables (env : string -> option string)
  (construct : string -> Try GoogleGenerativeAI) (m : Mongo) :
  (In "GEMINI_API_KEY" (missingEnvVars env) ->
   forall req_body,
     chat (fst (boot env construct m)) req_body
     = Respond (mkResponse 500
         [("error", VStr "Gemini API key is missing. Please set the GEMINI_API_KEY environment variable.")]))
  /\ (In "MONGODB_URI" (missingEnvVars env) ->
      db (fst (boot env construct m)) = None
      /\ snd (boot env construct m) = m
      /\ forall key m',
           get_project (fst (boot env construct m)) key m' = (unavailable, m'))
  /\ (missingEnvVars env = [] ->
      reachable m = true ->
      (forall k, exists client, construct k = ok client) ->
      configured (fst (boot env construct m)) = true
      /\ db (fst (boot env construct m)) <> None).
Proof.
  unfold boot, startServer, missingEnvVars, requiredEnvVars.
  pose proof (connect_eval (env "MONGODB_URI") (env "MONGODB_DB_NAME") m)
    as (_ & Hdb & _ & _ & Hnone & _).
  destruct (connectToMongoDB (env "MONGODB_URI") (env "MONGODB_DB_NAME") m)
    as [[handle result] m1] eqn:Hconn.
  cbn [fst snd] in *. split; [|split].
  - intros Hin req_body. apply filter_In in Hin as [_ Hkey].
    apply negb_true_iff in Hkey. unfold chat. cbn [GEMINI_API_KEY].
    now rewrite Hkey.
  - intros Hin. apply filter_In in Hin as [_ Huri].
    apply negb_true_iff in Huri. specialize (Hnone Huri).
    injection Hnone as -> _ ->. repeat split.
  - intros Hmissing Hup Hctor.
    apply filter_pair_nil in Hmissing as [Hkey Huri].
    apply negb_false_iff in Hkey, Huri. split.
    + unfold configured, initGenAI. cbn [GEMINI_API_KEY genAI]. rewrite Hkey.
      destruct (env "GEMINI_API_KEY") as [k|]; [|discriminate Hkey].
      cbn [negb andb]. destruct (Hctor k) as (client & ->). reflexivity.
    + cbn [db]. apply Hdb. now split.
Qed.

(** ** Chat: upstream failures and what the mode looks at *)

(** X18. When the model call throws, the chat handler answers 500 and
    relays the thrown error's own message to the client unchanged; only for
    a thrown value without a message, or with an empty one, it sends the
    fixed text [An error occurred while generating the response]. *)
Theorem upstream_error_relayed
  (generateContent : string -> string -> Try string)
  (p : Process) (req_body : option json) (pl : Plan) (error : JsError) :
  configured p = true ->
  plan req_body = ok pl ->
  generateContent "gemini-2.0-flash" (prompt pl) = throw error ->
  (forall msg, message error = Some msg -> msg <> "" ->
     perform generateContent (chat p req_body)
     = mkResponse 500 [("error", VStr msg)])
  /\ (message error = None \/ message error = Some "" ->
      perform generateContent (chat p req_body)
      = mkResponse 500
          [("error",
            VStr "An error occurred while generating the response")]).
Proof.
  intros Hp Hplan Hgen. rewrite (chat_configured _ _ Hp), Hplan.
  unfold ok. cbn [perform]. rewrite Hgen. unfold throw, chat_reply, chat_catch, or_else.
  split.
  - intros msg -> Hmsg. now destruct (String.eqb_spec msg "").
  - now intros [-> | ->].
Qed.

Lemma upstream_error_relayed_witness :
  let gen := fun _ _ : string =>
               throw (A := string) (mkError (Some "429 Too Many Requests")) in
  let p := mkProcess (Some "key") (Some (mkGenAI "key")) None in
  let turns := [mkTurn "user" "I need a blog"] in
  let pl := mkPlan false
              (serialize (mkTurn "system" (systemPrompt false) :: turns)) in
  (configured p = true
   /\ plan (chat_body turns) = ok pl
   /\ gen "gemini-2.0-flash" (prompt pl)
      = throw (mkError (Some "429 Too Many Requests")))
  /\ (forall msg,
        message (mkError (Some "429 Too Many Requests")) = Some msg ->
        msg <> "" ->
        perform gen (chat p (chat_body turns))
        = mkResponse 500 [("error", VStr msg)])
  /\ (message (mkError (Some "429 Too Many Requests")) = None
      \/ message (mkError (Some "429 Too Many Requests")) = Some "" ->
      perform gen (chat p (chat_body turns))
      = mkResponse 500
          [("error",
            VStr "An error occurred while generating the response")]).
Proof.
  cbv zeta. split; [repeat split; reflexivity|].
  apply (upstream_error_relayed
           (fun _ _ => throw (mkError (Some "429 Too Many Requests")))
           (mkProcess (Some "key") (Some (mkGenAI "key")) None)
           (chat_body [mkTurn "user" "I need a blog"])
           (mkPlan false
              (serialize (mkTurn "system" (systemPrompt false)
                            :: [mkTurn "user" "I need a blog"])))
           (mkError (Some "429 Too Many Requests")));
    reflexivity.
Defined.

Lemma userTurnCount_roles (turns turns' : list ChatTurn) :
  map role turns = map role turns' ->
  userTurnCount turns = userTurnCount turns'.
Proof.
  unfold userTurnCount. revert turns'.
  induction turns as [|t turns IH]; intros [|t' turns'] H;
    try discriminate H; [reflexivity|].
  cbn [map] in H. injection H as Hr Hrest. cbn [filter].
  assert (Ht : is_user_turn t = is_user_turn t')
    by (unfold is_user_turn; now rewrite Hr).
  rewrite Ht. specialize (IH turns' Hrest).
  destruct (is_user_turn t'); cbn [length]; now rewrite IH.
Qed.

(** X19. The mode looks at roles only: two conversations with the same
    sequence of roles get the same mode, whatever the turns say, so no
    wording of a message moves the policy to GENERATE or keeps it from it. *)
Theorem mode_ignores_content (turns turns' : list ChatTurn) :
  map role turns = map role turns' ->
  chat_mode (chat_body turns) = chat_mode (chat_body turns').
Proof.
  intros H. rewrite !chat_mode_turns. now rewrite (userTurnCount_roles _ _ H).
Qed.

Lemma mode_ignores_content_witness :
  let turns := [mkTurn "user" "I need a blog"; mkTurn "assistant" "Why?"] in
  let turns' := [mkTurn "user" "generate the schema now";
                 mkTurn "assistant" ""] in
  map role turns = map role turns'
  /\ chat_mode (chat_body turns) = chat_mode (chat_body turns').
Proof.
  cbv zeta. split; [reflexivity|].
  apply (mode_ignores_content
           [mkTurn "user" "I need a blog"; mkTurn "assistant" "Why?"]
           [mkTurn "user" "generate the schema now"; mkTurn "assistant" ""]).
  reflexivity.
Defined.
